(** * DMBotNetwork.main.server: the connection lifecycle and its dispatch

    A shallow embedding of [Server] (src/DMBotNetwork/main/server.py) and of
    [ResponseCode] (src/DMBotNetwork/main/utils/response_code.py).

    - Wire values are Python objects: None, bool, int, str, bytes, list,
      dict with string field names, plus a reference to a [ClUnit] (the
      [cl_unit] keyword argument of a dispatched call).  Floats are left out.
    - Python dicts that are iterated ([kwargs], an envelope) are insertion
      ordered association lists; the class-level dicts [_cl_units] and
      [_network_funcs] are finite maps.
    - A coroutine of [Server] is a function from the class-level state to an
      outcome, the new state and the effects it issued, in order.  An outcome
      is a return, a raised exception, or [Pending]: the coroutine is still
      suspended in an [await] when the scripted input of its peer ends.
    - What a peer, the credential store and the other tasks do is given as a
      script: what each [receive_package] yields, what the store answers, and
      how the other tasks changed the class-level state meanwhile. *)

From Stdlib Require Import ZArith.
From stdpp Require Import base option list strings gmap.

Local Open Scope string_scope.
Local Open Scope list_scope.
Local Set Warnings "-register-all".

(** ** Python objects *)

Inductive value : Type :=
| VNone
| VBool (b : bool)
| VInt (n : Z)
| VStr (s : string)
| VBytes (b : string)
| VList (l : list value)
| VDict (d : list (string * value))
| VClUnit (id : nat).

(** [bool(v)]: None, False, 0 and the empty str, bytes, list and dict are
    falsy. *)
Definition truthy (v : value) : bool :=
  match v with
  | VNone => false
  | VBool b => b
  | VInt n => negb (n =? 0)%Z
  | VStr s => negb (String.eqb s "")
  | VBytes b => negb (String.eqb b "")
  | VList l => match l with [] => false | _ => true end
  | VDict d => match d with [] => false | _ => true end
  | VClUnit _ => true
  end.

Inductive pyclass : Type :=
| C_object | C_NoneType | C_bool | C_int | C_str | C_bytes | C_list | C_dict
| C_ClUnit.

Definition type_of (v : value) : pyclass :=
  match v with
  | VNone => C_NoneType
  | VBool _ => C_bool
  | VInt _ => C_int
  | VStr _ => C_str
  | VBytes _ => C_bytes
  | VList _ => C_list
  | VDict _ => C_dict
  | VClUnit _ => C_ClUnit
  end.

Definition pyclass_eqb (c1 c2 : pyclass) : bool :=
  match c1, c2 with
  | C_object, C_object | C_NoneType, C_NoneType | C_bool, C_bool
  | C_int, C_int | C_str, C_str | C_bytes, C_bytes | C_list, C_list
  | C_dict, C_dict | C_ClUnit, C_ClUnit => true
  | _, _ => false
  end.

(** [issubclass(c, d)]: every class derives from object, bool from int. *)
Definition issubclass (c d : pyclass) : bool :=
  match d, c with
  | C_object, _ => true
  | C_int, C_bool => true
  | _, _ => pyclass_eqb c d
  end.

(** The integer a value compares equal to, if any ([True == 1]). *)
Definition as_int (v : value) : option Z :=
  match v with
  | VInt n => Some n
  | VBool b => Some (if b then 1 else 0)%Z
  | _ => None
  end.

(** [v == n] for an int (or IntEnum member) [n]. *)
Definition eq_int (v : value) (n : Z) : bool :=
  match as_int v with
  | Some m => (m =? n)%Z
  | None => false
  end.

(** Hashable objects, up to [==], as dict keys. *)
Inductive key : Type :=
| KNone
| KInt (n : Z)
| KStr (s : string)
| KBytes (b : string)
| KClUnit (id : nat).

Global Instance key_eq_dec : EqDecision key.
Proof. solve_decision. Defined.

Global Instance key_countable : Countable key.
Proof.
  refine (inj_countable'
    (λ k, match k with
          | KNone => inl ()
          | KInt n => inr (inl n)
          | KStr s => inr (inr (inl s))
          | KBytes b => inr (inr (inr (inl b)))
          | KClUnit i => inr (inr (inr (inr i)))
          end)
    (λ x, match x with
          | inl _ => KNone
          | inr (inl n) => KInt n
          | inr (inr (inl s)) => KStr s
          | inr (inr (inr (inl b))) => KBytes b
          | inr (inr (inr (inr i))) => KClUnit i
          end) _).
  by intros [].
Defined.

(** [hash(v)]: lists and dicts are unhashable. *)
Definition hash_key (v : value) : option key :=
  match v with
  | VNone => Some KNone
  | VBool b => Some (KInt (if b then 1 else 0))
  | VInt n => Some (KInt n)
  | VStr s => Some (KStr s)
  | VBytes b => Some (KBytes b)
  | VClUnit i => Some (KClUnit i)
  | VList _ | VDict _ => None
  end.

(** ** Insertion-ordered dicts with string keys *)

Section Dict.
Context {A : Type}.

Fixpoint dict_get (k : string) (d : list (string * A)) : option A :=
  match d with
  | [] => None
  | (k', v) :: d' => if String.eqb k k' then Some v else dict_get k d'
  end.

Fixpoint dict_remove (k : string) (d : list (string * A)) : list (string * A) :=
  match d with
  | [] => []
  | (k', v) :: d' =>
      if String.eqb k k' then dict_remove k d' else (k', v) :: dict_remove k d'
  end.

(** [d.pop(k, None)] *)
Definition dict_pop (k : string) (d : list (string * A))
  : option A * list (string * A) :=
  (dict_get k d, dict_remove k d).

Definition dict_has (k : string) (d : list (string * A)) : bool :=
  match dict_get k d with Some _ => true | None => false end.
End Dict.

Abbreviation kwargs := (list (string * value)).

(** ** Exceptions *)

Inductive exn_class : Type :=
| CancelledError          (* asyncio.CancelledError, a BaseException *)
| KeyboardInterrupt       (* a BaseException *)
| SystemExit              (* a BaseException *)
| TimeoutError
| ValueError
| TypeError
| AttributeError
| NameError
| RuntimeError
| ConnectionAbortedError
| ConnectionResetError
| IncompleteReadError     (* asyncio.exceptions.IncompleteReadError *)
| OtherException (name : string).  (* any other direct subclass of Exception *)

Definition is_Exception (c : exn_class) : bool :=
  match c with
  | CancelledError | KeyboardInterrupt | SystemExit => false
  | _ => true
  end.

(** A declared parameter type as [get_type_hints] returns it. *)
Inductive type_hint : Type :=
| HAny                       (* typing.Any *)
| HClass (c : pyclass)
| HGeneric (origin : pyclass). (* a subscripted generic such as List[int] *)

(** [str(err)] and the other texts sent or logged, kept structured. *)
Inductive text : Type :=
| Txt (s : string)
| TxtNotValidCode (v : value)            (* "<v> is not a valid ResponseCode" *)
| TxtNoAttribute (owner attr : string)
| TxtUnhashable (c : pyclass)
| TxtIsinstance (h : type_hint)          (* isinstance() refused its argument *)
| TxtMultipleValues (callee arg : string)
| TxtUnexpected (t : text).              (* f"An unexpected error occurred: {err}" *)

Record exn : Type := Exn { exn_type : exn_class; exn_str : text }.

(** ** ResponseCode *)

Module ResponseCode.

Inductive t : Type :=
| AUTH_REQ | AUTH_ANS_LOGIN | AUTH_ANS_REGIS | AUTH_ANS_SERVE
| NET_REQ
| FIL_REQ | FIL_END
| LOG_DEB | LOG_INF | LOG_WAR | LOG_ERR.

Definition int_value (c : t) : Z :=
  match c with
  | AUTH_REQ => 10 | AUTH_ANS_LOGIN => 11 | AUTH_ANS_REGIS => 12
  | AUTH_ANS_SERVE => 19
  | NET_REQ => 20
  | FIL_REQ => 30 | FIL_END => 31
  | LOG_DEB => 41 | LOG_INF => 42 | LOG_WAR => 43 | LOG_ERR => 44
  end%Z.

Definition members : list t :=
  [AUTH_REQ; AUTH_ANS_LOGIN; AUTH_ANS_REGIS; AUTH_ANS_SERVE; NET_REQ;
   FIL_REQ; FIL_END; LOG_DEB; LOG_INF; LOG_WAR; LOG_ERR].

Definition eqb (c1 c2 : t) : bool := (int_value c1 =? int_value c2)%Z.

(** A member is an int: this is the object a member is as a [value]. *)
Definition to_value (c : t) : value := VInt (int_value c).

(** [ResponseCode(v)]: the member equal to [v], or ValueError. *)
Definition call (v : value) : exn + t :=
  match List.find (λ c, eq_int v (int_value c)) members with
  | Some c => inr c
  | None => inl (Exn ValueError (TxtNotValidCode v))
  end.

(** [code in {m1, ..., mk}]: hashes [code] first. *)
Definition in_set (code : value) (ms : list t) : exn + bool :=
  match hash_key code with
  | None => inl (Exn TypeError (TxtUnhashable (type_of code)))
  | Some _ => inr (existsb (λ c, eq_int code (int_value c)) ms)
  end.

Definition is_auth (code : value) : exn + bool :=
  in_set code [AUTH_REQ; AUTH_ANS_LOGIN; AUTH_ANS_REGIS; AUTH_ANS_SERVE].

Definition is_net (code : value) : exn + bool :=
  inr (eq_int code (int_value NET_REQ)).

Definition is_file (code : value) : exn + bool :=
  in_set code [FIL_REQ; FIL_END].

Definition is_log (code : value) : exn + bool :=
  in_set code [LOG_DEB; LOG_INF; LOG_WAR; LOG_ERR].

(** The class methods the class body defines. *)
Definition classmethods : list (string * (value → exn + bool)) :=
  [("is_auth", is_auth); ("is_net", is_net); ("is_file", is_file);
   ("is_log", is_log)].

(** [ResponseCode.<name>] for a method name: AttributeError when the class
    defines no such attribute. *)
Definition getattr (name : string) : exn + (value → exn + bool) :=
  match dict_get name classmethods with
  | Some m => inr m
  | None => inl (Exn AttributeError (TxtNoAttribute "ResponseCode" name))
  end.

End ResponseCode.

(** ** Connection units, effects and the class-level state *)

(** A [ClUnit]: the object (by identity) and its [login] attribute. *)
Record ClUnit : Type := { cl_id : nat; login : value }.

Inductive log_record : Type :=
| LogFuncNotFound (func_name : value)                                (* debug *)
| LogTypeMismatch (arg_name : string) (expected : type_hint) (got : pyclass)
| LogCallError (func_name : value) (err : exn)
| LogConnected (who : value)
| LogDisconnected (who : value)
| LogServerStop.

(** What a coroutine does to the world outside the class-level state. *)
Inductive event : Type :=
| EvSendPackage (cl : nat) (code : ResponseCode.t) (fields : kwargs)
| EvSendLogError (cl : nat) (msg : text)
| EvDisconnect (cl : nat)            (* await cl_unit.disconnect() *)
| EvGatherDisconnect (cls : list nat) (* asyncio.gather over disconnect() *)
| EvCall (func_name : string) (awaited : bool) (args : kwargs)
| EvStoreAddUser (who password : value)
| EvStoreLoginUser (who password : value)
| EvStoreStop
| EvListenerClose
| EvListenerWaitClosed
| EvOnline (b : bool)                (* an assignment to cls._is_online *)
| EvLog (r : log_record).

(** The class attributes of [Server], but for the registry [_network_funcs]
    (the functions it holds act on this state) and [_timeout] (a timeout is
    an answer of the script). *)
Record ServerState : Type := {
  _cl_units : gmap key ClUnit;
  _server : option nat;
  _is_online : bool;
  _server_name : string;
  _allow_registration : bool;
  _max_players : Z
}.

Definition set_cl_units (f : gmap key ClUnit → gmap key ClUnit) (s : ServerState)
  : ServerState :=
  {| _cl_units := f (_cl_units s); _server := _server s;
     _is_online := _is_online s; _server_name := _server_name s;
     _allow_registration := _allow_registration s;
     _max_players := _max_players s |}.

Definition set_is_online (b : bool) (s : ServerState) : ServerState :=
  {| _cl_units := _cl_units s; _server := _server s;
     _is_online := b; _server_name := _server_name s;
     _allow_registration := _allow_registration s;
     _max_players := _max_players s |}.

(** ** Coroutines *)

Inductive outcome (A : Type) : Type :=
| Return (a : A)
| Raise (err : exn)
| Pending.
Arguments Return {A} a.
Arguments Raise {A} err.
Arguments Pending {A}.

Definition M (A : Type) : Type := ServerState → outcome A * ServerState * list event.

Definition ret {A} (a : A) : M A := λ s, (Return a, s, []).
Definition raise {A} (err : exn) : M A := λ s, (Raise err, s, []).
Definition pending {A} : M A := λ s, (Pending, s, []).

Definition bind {A B} (m : M A) (k : A → M B) : M B := λ s,
  match m s with
  | (Return a, s1, t1) => let '(o, s2, t2) := k a s1 in (o, s2, t1 ++ t2)
  | (Raise err, s1, t1) => (Raise err, s1, t1)
  | (Pending, s1, t1) => (Pending, s1, t1)
  end.

Notation "x <- m ;; k" := (bind m (λ x, k))
  (at level 20, m at level 99, k at level 200, only parsing).
Notation "m ;; k" := (bind m (λ _, k))
  (at level 100, k at level 200, right associativity, only parsing).

Definition gets {A} (f : ServerState → A) : M A := λ s, (Return (f s), s, []).
Definition modify (f : ServerState → ServerState) : M unit := λ s, (Return tt, f s, []).
Definition emit (e : event) : M unit := λ s, (Return tt, s, [e]).

(** An operation that returns or raises, and touches nothing. *)
Definition lift {A} (r : exn + A) : M A :=
  match r with
  | inl err => raise err
  | inr a => ret a
  end.

(** [try: m  except <clauses>]: [handler err] is the body of the first
    clause that matches [err], if one does. *)
Definition try_except {A} (m : M A) (handler : exn → option (M A)) : M A := λ s,
  match m s with
  | (Raise err, s1, t1) =>
      match handler err with
      | Some h => let '(o, s2, t2) := h s1 in (o, s2, t1 ++ t2)
      | None => (Raise err, s1, t1)
      end
  | r => r
  end.

(** [try: m  finally: fin]: [fin] runs when [m] returned or raised; an
    exception of [fin] replaces the outcome of [m]. *)
Definition try_finally {A} (m : M A) (fin : M unit) : M A := λ s,
  match m s with
  | (Pending, s1, t1) => (Pending, s1, t1)
  | (o, s1, t1) =>
      match fin s1 with
      | (Return _, s2, t2) => (o, s2, t1 ++ t2)
      | (Raise err, s2, t2) => (Raise err, s2, t1 ++ t2)
      | (Pending, s2, t2) => (Pending, s2, t1 ++ t2)
      end
  end.

Definition run_outcome {A} (r : outcome A * ServerState * list event) : outcome A := r.1.1.
Definition run_state {A} (r : outcome A * ServerState * list event) : ServerState := r.1.2.
Definition run_trace {A} (r : outcome A * ServerState * list event) : list event := r.2.

(** ** The collaborators outside src/ *)

(** Modelled from the spec: [ClUnit.send_package], the transport's
    [sendEnvelope(code, fields)] of §6; nothing but the send is described. *)
Definition send_package (cl_unit : ClUnit) (code : ResponseCode.t) (fields : kwargs)
  : M unit :=
  emit (EvSendPackage (cl_id cl_unit) code fields).

(** Modelled from the spec: [ClUnit.send_log_error], the structured error-log
    envelope of §4.2 and §4.3, a send as above. *)
Definition send_log_error (cl_unit : ClUnit) (msg : text) : M unit :=
  emit (EvSendLogError (cl_id cl_unit) msg).

(** Modelled from the spec: [ClUnit.disconnect], [disconnect()] of §6
    (idempotent, releases the transport). *)
Definition disconnect (cl_unit : ClUnit) : M unit :=
  emit (EvDisconnect (cl_id cl_unit)).

(** Modelled from the spec: [ClUnit.receive_package], [receiveEnvelope()] of
    §6: one envelope, or the failure of the transport. *)
Inductive received : Type :=
| Got (package : value)
| Failed (err : exn).

Definition receive_package (r : received) : M value :=
  match r with
  | Got package => ret package
  | Failed err => raise err
  end.

(** One turn of a peer: what the other tasks did to the class-level state
    while this coroutine awaited, then what the await yields. *)
Record tick : Type := { tick_env : ServerState → ServerState; tick_recv : received }.

(** The handshake's script: the reply awaited under [asyncio.wait_for]
    ([Failed] with TimeoutError when the timeout wins) and the answer of
    [ServerDB.add_user] or [ServerDB.login_user], the exception it raises if
    any (spec §6: [addUser] fails if the login exists, [loginUser] if it is
    unknown or the password does not match). *)
Record handshake : Type := { hs_reply : tick; hs_store : option exn }.

(** Modelled from the spec: [ServerDB.add_user] and [ServerDB.login_user],
    [addUser] and [loginUser] of §6, which return or fail. *)
Definition store_answer (hs : handshake) : M unit :=
  match hs_store hs with
  | Some err => raise err
  | None => ret tt
  end.

(** ** Registered network functions *)

(** A function of the registry, as [_call_func] sees it. *)
Record NetFunc : Type := {
  (** the names of [inspect.signature(func).parameters], the first
      (receiver) parameter included *)
  parameters : list string;
  (** [get_type_hints(func)], which raises when an annotation does not
      resolve *)
  type_hints : exn + list (string * type_hint);
  (** [inspect.iscoroutinefunction(func)] *)
  is_coroutine : bool;
  (** [func(cls, **kw)], awaited when a coroutine: the binding of the
      arguments and the body *)
  call : kwargs → M unit
}.

(** [isinstance(v, h)]: typing.Any and subscripted generics are refused with
    a TypeError. *)
Definition isinstance (v : value) (h : type_hint) : exn + bool :=
  match h with
  | HClass c => inr (issubclass (type_of v) c)
  | HAny | HGeneric _ => inl (Exn TypeError (TxtIsinstance h))
  end.

Definition is_Any (h : type_hint) : bool :=
  match h with HAny => true | _ => false end.

(** The loop of [_call_func] over [valid_kwargs.items()]: [false] when it
    logged a mismatch and returned. *)
Fixpoint check_types (hints : list (string * type_hint)) (items : kwargs) : M bool :=
  match items with
  | [] => ret true
  | (arg_name, arg_value) :: items' =>
      let expected_type := default HAny (dict_get arg_name hints) in
      inst <- lift (isinstance arg_value expected_type);;
      if negb inst && negb (is_Any expected_type) then
        emit (EvLog (LogTypeMismatch arg_name expected_type (type_of arg_value)));;
        ret false
      else check_types hints items'
  end.

Section Server.

(** [Server._network_funcs], filled by [register_methods_from_class]
    before the server runs. *)
Variable _network_funcs : gmap string NetFunc.

(** [cls._network_funcs.get(func_name)]: the keys are strings. *)
Definition network_funcs_get (func_name : value) : exn + option (string * NetFunc) :=
  match hash_key func_name with
  | None => inl (Exn TypeError (TxtUnhashable (type_of func_name)))
  | Some (KStr name) => inr (pair name <$> _network_funcs !! name)
  | Some _ => inr None
  end.

Definition valid_kwargs_of (func : NetFunc) (kw : kwargs) : kwargs :=
  filter (λ kv, kv.1 ∈ parameters func) kw.

(** [await func(cls, **valid_kwargs)] or [func(cls, **valid_kwargs)] *)
Definition invoke (name : string) (func : NetFunc) (valid_kwargs : kwargs) : M unit :=
  emit (EvCall name (is_coroutine func) valid_kwargs);;
  call func valid_kwargs.

(** [except Exception as e] around the invocation. *)
Definition call_except (func_name : value) (e : exn) : option (M unit) :=
  if is_Exception (exn_type e)
  then Some (emit (EvLog (LogCallError func_name e)))
  else None.

Definition _call_func (func_name : value) (kw : kwargs) : M unit :=
  func <- lift (network_funcs_get func_name);;
  match func with
  | None => emit (EvLog (LogFuncNotFound func_name))
  | Some (name, func) =>
      let valid_kwargs := valid_kwargs_of func kw in
      type_hints <- lift (type_hints func);;
      ok <- check_types type_hints valid_kwargs;;
      if ok then
        try_except (invoke name func valid_kwargs) (call_except func_name)
      else ret tt
  end.

(** *** stop *)

Definition assign_is_online (b : bool) : M unit :=
  modify (set_is_online b);; emit (EvOnline b).

(** [asyncio.gather] is called, not awaited; [ServerDB.stop()] is the
    [stop()] of the store's lifecycle (spec §6). *)
Definition stop : M unit :=
  online <- gets _is_online;;
  if negb online then raise (Exn RuntimeError (Txt "Server is not working."))
  else
    assign_is_online false;;
    units <- gets (λ s, (map_to_list (_cl_units s)).*2);;
    emit (EvGatherDisconnect (cl_id <$> units));;
    modify (set_cl_units (λ _, ∅));;
    server <- gets _server;;
    match server with
    | Some _ => emit EvListenerClose;; emit EvListenerWaitClosed
    | None => ret tt
    end;;
    emit EvStoreStop;;
    emit (EvLog LogServerStop).

(** *** _auth *)

Definition server_is_full (s : ServerState) : bool :=
  negb (_max_players s =? -1)%Z && (_max_players s <=? Z.of_nat (size (_cl_units s)))%Z.

(** [await asyncio.wait_for(cl_unit.receive_package(), cls._timeout)] *)
Definition await_receive (t : tick) : M value :=
  modify (tick_env t);; receive_package (tick_recv t).

Definition with_login (cl_unit : ClUnit) (l : value) : ClUnit :=
  {| cl_id := cl_id cl_unit; login := l |}.

(** Returns the unit with the login [_auth] assigned to it. *)
Definition _auth (cl_unit : ClUnit) (hs : handshake) : M ClUnit :=
  full <- gets server_is_full;;
  if full then raise (Exn ValueError (Txt "Server is full."))
  else
    send_package cl_unit ResponseCode.AUTH_REQ [];;
    receive_package <- await_receive (hs_reply hs);;
    match receive_package with
    | VDict receive_package =>
        let code := default VNone (dict_get "code" receive_package) in
        if negb (truthy code) then
          raise (Exn ValueError (Txt "Receive data must has 'code' key."))
        else
          code <- lift (ResponseCode.call code);;
          is_client_auth <- lift (ResponseCode.getattr "is_client_auth");;
          client_auth <- lift (is_client_auth (ResponseCode.to_value code));;
          if negb client_auth then
            raise (Exn ValueError (Txt "Unknown 'code' for auth type."))
          else
            let login := default VNone (dict_get "login" receive_package) in
            let password := default VNone (dict_get "password" receive_package) in
            if negb (forallb truthy [login; password]) then
              raise (Exn ValueError
                       (Txt "Receive data must has 'login' and 'password' keys."))
            else
              (if ResponseCode.eqb code ResponseCode.AUTH_ANS_REGIS then
                 allow <- gets _allow_registration;;
                 if negb allow then
                   raise (Exn ValueError (Txt "Registration is not allowed."))
                 else
                   emit (EvStoreAddUser login password);; store_answer hs
               else
                 emit (EvStoreLoginUser login password);; store_answer hs);;
              server_name <- gets _server_name;;
              send_package cl_unit ResponseCode.AUTH_ANS_SERVE
                [("server_name", VStr server_name)];;
              ret (with_login cl_unit login)
    | _ => raise (Exn ValueError (Txt "Receive data type expected dict."))
    end.

(** *** _cl_handler *)

(** The keyword arguments of the call
    [cls._call_func(func_name, cl_unit=cl_unit, **receive_package)]: a
    field named like [cl_unit] or like a parameter of [_call_func] is a
    TypeError of the call itself. *)
Definition call_kwargs (cl_unit : ClUnit) (receive_package : kwargs) : exn + kwargs :=
  if dict_has "cl_unit" receive_package then
    inl (Exn TypeError (TxtMultipleValues "_call_func" "cl_unit"))
  else
    match List.find (λ kv, String.eqb kv.1 "cls" || String.eqb kv.1 "func_name")
                    receive_package with
    | Some (k, _) => inl (Exn TypeError (TxtMultipleValues "_call_func" k))
    | None => inr (("cl_unit", VClUnit (cl_id cl_unit)) :: receive_package)
    end.

(** The body of [while cls._is_online], from the received package on. *)
Definition loop_body (cl_unit : ClUnit) (receive_package : value) : M unit :=
  match receive_package with
  | VDict receive_package =>
      let '(code, receive_package) := dict_pop "code" receive_package in
      let code := default VNone code in
      if negb (truthy code) then
        send_log_error cl_unit (Txt "Receive data must has 'code' key.")
      else
        is_net <- lift (ResponseCode.getattr "is_net");;
        net <- lift (is_net code);;
        if net then
          let '(func_name, receive_package) := dict_pop "net_func_name" receive_package in
          let func_name := default VNone func_name in
          kw <- lift (call_kwargs cl_unit receive_package);;
          _call_func func_name kw
        else send_log_error cl_unit (Txt "Unknown 'code' for net type.")
  | _ => send_log_error cl_unit (Txt "Receive data type expected dict.")
  end.

Fixpoint message_loop (cl_unit : ClUnit) (script : list tick) : M unit :=
  online <- gets _is_online;;
  if negb online then ret tt
  else
    match script with
    | [] => pending
    | t :: script' =>
        receive_package <- await_receive t;;
        loop_body cl_unit receive_package;;
        message_loop cl_unit script'
    end.

(** The except clauses of the message loop. *)
Definition loop_except (cl_unit : ClUnit) (err : exn) : option (M unit) :=
  match exn_type err with
  | CancelledError | ConnectionAbortedError | IncompleteReadError
  | ConnectionResetError => Some (ret tt)
  | c =>
      if is_Exception c
      then Some (send_log_error cl_unit (TxtUnexpected (exn_str err)))
      else None
  end.

(** [d[k] = v] and [d.pop(k, None)] hash the key. *)
Definition hashed (k : value) : M key :=
  match hash_key k with
  | Some h => ret h
  | None => raise (Exn TypeError (TxtUnhashable (type_of k)))
  end.

(** [cls._cl_units[cl_unit.login] = cl_unit] *)
Definition cl_units_set (cl_unit : ClUnit) : M unit :=
  k <- hashed (login cl_unit);;
  modify (set_cl_units (insert k cl_unit)).

(** [cls._cl_units.pop(cl_unit.login, None)] *)
Definition cl_units_pop (cl_unit : ClUnit) : M unit :=
  k <- hashed (login cl_unit);;
  modify (set_cl_units (delete k)).

(** The finally block of [_cl_handler]. *)
Definition cleanup (cl_unit : ClUnit) : M unit :=
  cl_units_pop cl_unit;;
  disconnect cl_unit;;
  emit (EvLog (LogDisconnected (login cl_unit))).

(** [_cl_handler] after the handshake: lines 177 to 217. *)
Definition session (cl_unit : ClUnit) (script : list tick) : M unit :=
  cl_units_set cl_unit;;
  emit (EvLog (LogConnected (login cl_unit)));;
  try_finally
    (try_except (message_loop cl_unit script) (loop_except cl_unit))
    (cleanup cl_unit).

(** The except clauses around [await cls._auth(cl_unit)]; each returns from
    the handler. *)
Definition auth_except (cl_unit : ClUnit) (err : exn) : option (M (option ClUnit)) :=
  let reject msg :=
    Some (send_log_error cl_unit msg;; disconnect cl_unit;; ret None) in
  match exn_type err with
  | TimeoutError => reject (Txt "Timeout for auth.")
  | ValueError => reject (exn_str err)
  | c => if is_Exception c then reject (TxtUnexpected (exn_str err)) else None
  end.

(** [ClUnit("init", reader, writer)] *)
Definition init_unit (id : nat) : ClUnit := {| cl_id := id; login := VStr "init" |}.

Definition _cl_handler (id : nat) (hs : handshake) (script : list tick) : M unit :=
  let cl_unit := init_unit id in
  authenticated <- try_except (cl_unit <- _auth cl_unit hs;; ret (Some cl_unit))
                              (auth_except cl_unit);;
  match authenticated with
  | None => ret tt
  | Some cl_unit => session cl_unit script
  end.

End Server.

(** ** The exceptions and texts of the source, named *)

Definition full_error : exn := Exn ValueError (Txt "Server is full.").
Definition no_code_text : text := Txt "Receive data must has 'code' key.".
Definition no_code_error : exn := Exn ValueError no_code_text.
Definition no_is_client_auth : text := TxtNoAttribute "ResponseCode" "is_client_auth".
Definition not_working_error : exn := Exn RuntimeError (Txt "Server is not working.").

(** ** What the theorems speak of *)

(** The units [stop] gathers the disconnects of. *)
Definition live_ids (s : ServerState) : list nat :=
  cl_id <$> (map_to_list (_cl_units s)).*2.

(** The effects of the finally block of [_cl_handler]. *)
Definition cleanup_events (cl_unit : ClUnit) : list event :=
  [EvDisconnect (cl_id cl_unit); EvLog (LogDisconnected (login cl_unit))].

(** The outcome of the handler when an exception [err] leaves the loop. *)
Definition outcome_after (cl_unit : ClUnit) (err : exn) : outcome unit :=
  match loop_except cl_unit err with
  | Some _ => Return tt
  | None => Raise err
  end.

(** ** A scenario to run the model on *)

Module Scenario.

Definition alice : ClUnit := {| cl_id := 1; login := VStr "alice" |}.
Definition bob : ClUnit := {| cl_id := 2; login := VStr "bob" |}.
(** a second connection that logged in as alice *)
Definition alice' : ClUnit := {| cl_id := 3; login := VStr "alice" |}.

Definition server (units : gmap key ClUnit) (online : bool) (max_players : Z)
  : ServerState :=
  {| _cl_units := units; _server := Some 0%nat; _is_online := online;
     _server_name := "Dev_Server"; _allow_registration := true;
     _max_players := max_players |}.

Definition only_alice : gmap key ClUnit := {[ KStr "alice" := alice ]}.

(** nothing else happens while the peer's package is awaited *)
Definition quiet (r : received) : tick := {| tick_env := λ s, s; tick_recv := r |}.

(** the coordinator stops the server while the package is awaited *)
Definition stopping (r : received) : tick :=
  {| tick_env := λ s, set_cl_units (λ _, ∅) (set_is_online false s);
     tick_recv := r |}.

Definition login_reply : kwargs :=
  [("code", VInt 11); ("login", VStr "bob"); ("password", VStr "pw")].

Definition handshake_of (reply : kwargs) : handshake :=
  {| hs_reply := quiet (Got (VDict reply)); hs_store := None |}.

(** [def net_ping(cls, cl_unit): ...], no annotation *)
Definition net_ping : NetFunc :=
  {| parameters := ["cls"; "cl_unit"]; type_hints := inr [];
     is_coroutine := true; call := λ _, ret tt |}.

(** [def net_say(cls, cl_unit: ClUnit, text: str): ...] *)
Definition net_say : NetFunc :=
  {| parameters := ["cls"; "cl_unit"; "text"];
     type_hints := inr [("cl_unit", HClass C_ClUnit); ("text", HClass C_str)];
     is_coroutine := false; call := λ _, ret tt |}.

Definition registry : gmap string NetFunc :=
  {[ "ping" := net_ping; "say" := net_say ]}.

(** [async def net_echo(cls, cl_unit: ClUnit, text: str):
        await cl_unit.send_package(ResponseCode.LOG_INF, text=text)]
    with the binding of its keyword arguments: one it does not declare, or a
    missing one, is a TypeError of the call. *)
Definition net_echo : NetFunc :=
  {| parameters := ["cls"; "cl_unit"; "text"];
     type_hints := inr [("cl_unit", HClass C_ClUnit); ("text", HClass C_str)];
     is_coroutine := true;
     call := λ kw,
       match List.find (λ kv, negb (String.eqb kv.1 "cl_unit" || String.eqb kv.1 "text"))
                       kw with
       | Some (k, _) =>
           raise (Exn TypeError (Txt ("net_echo() got an unexpected keyword argument "
                                      +:+ k)))
       | None =>
           match dict_get "cl_unit" kw, dict_get "text" kw with
           | Some (VClUnit id), Some text =>
               emit (EvSendPackage id ResponseCode.LOG_INF [("text", text)])
           | _, _ => raise (Exn TypeError (Txt "net_echo() missing required arguments"))
           end
       end |}.

End Scenario.

(** ** register_methods_from_class *)

(** [name.startswith(prefix)] *)
Definition startswith (prefix name : string) : bool := String.prefix prefix name.

(** [name[n:]] *)
Definition slice_from (n : nat) (name : string) : string :=
  String.substring n (String.length name - n) name.

(** One line of [logger.debug]: the member, the class and the name the
    member is registered under. *)
Record registered : Type :=
  Registered { reg_member : string; reg_class : string; reg_method : string }.

(** One turn of the loop over the members: the registry and the debug
    lines so far. *)
Definition register_step (class_name : string)
    (st : gmap string NetFunc * list registered) (member : string * NetFunc)
  : gmap string NetFunc * list registered :=
  let '(name, func) := member in
  if startswith "net_" name then
    let method_name := slice_from 4 name in
    (<[method_name := func]> st.1,
     st.2 ++ [Registered name class_name method_name])
  else st.

(** [register_methods_from_class(external_class)] on the registry.
    [members] is what [inspect.getmembers(external_class,
    predicate=inspect.isfunction)] returns, the functions of the class with
    their names, and [class_name] is [external_class.__name__]. *)
Definition register_methods_from_class (class_name : string)
    (members : list (string * NetFunc)) (funcs : gmap string NetFunc)
  : gmap string NetFunc * list registered :=
  foldl (register_step class_name) (funcs, []) members.

(** ** start *)

(** The effects of [start]: those of the operations above and its own. *)
Inductive lifecycle_event : Type :=
| LcEvent (e : event)
| LcStoreStart                 (* await ServerDB.start() *)
| LcLogServerStart             (* logger.info("Server start.") *)
| LcServeForever               (* await cls._server.serve_forever(), with
                                  what the library does inside it *)
| LcLogStartError (err : exn). (* logger.error(f"Error starting server: {err}") *)

(** Coroutines over any type of effects, as [M] is over [event]. *)
Section Effects.
Context {E : Type}.

Definition Eff (A : Type) : Type := ServerState → outcome A * ServerState * list E.

Definition retE {A} (a : A) : Eff A := λ s, (Return a, s, []).
Definition raiseE {A} (err : exn) : Eff A := λ s, (Raise err, s, []).
Definition pendingE {A} : Eff A := λ s, (Pending, s, []).
Definition getsE {A} (f : ServerState → A) : Eff A := λ s, (Return (f s), s, []).
Definition modifyE (f : ServerState → ServerState) : Eff unit := λ s, (Return tt, f s, []).
Definition emitE (e : E) : Eff unit := λ s, (Return tt, s, [e]).

Definition bindE {A B} (m : Eff A) (k : A → Eff B) : Eff B := λ s,
  match m s with
  | (Return a, s1, t1) => let '(o, s2, t2) := k a s1 in (o, s2, t1 ++ t2)
  | (Raise err, s1, t1) => (Raise err, s1, t1)
  | (Pending, s1, t1) => (Pending, s1, t1)
  end.

Definition try_exceptE {A} (m : Eff A) (handler : exn → option (Eff A)) : Eff A := λ s,
  match m s with
  | (Raise err, s1, t1) =>
      match handler err with
      | Some h => let '(o, s2, t2) := h s1 in (o, s2, t1 ++ t2)
      | None => (Raise err, s1, t1)
      end
  | r => r
  end.

Definition try_finallyE {A} (m : Eff A) (fin : Eff unit) : Eff A := λ s,
  match m s with
  | (Pending, s1, t1) => (Pending, s1, t1)
  | (o, s1, t1) =>
      match fin s1 with
      | (Return _, s2, t2) => (o, s2, t1 ++ t2)
      | (Raise err, s2, t2) => (Raise err, s2, t1 ++ t2)
      | (Pending, s2, t2) => (Pending, s2, t1 ++ t2)
      end
  end.
End Effects.

Arguments Eff E A : clear implicits.

Definition outcome_of {E A} (r : outcome A * ServerState * list E) : outcome A := r.1.1.
Definition state_of {E A} (r : outcome A * ServerState * list E) : ServerState := r.1.2.
Definition trace_of {E A} (r : outcome A * ServerState * list E) : list E := r.2.

(** A coroutine of the operations above, run inside [start]. *)
Definition of_M {A} (m : M A) : Eff lifecycle_event A := λ s,
  let '(o, s1, t1) := m s in (o, s1, LcEvent <$> t1).

Notation "x <~ m ;; k" := (bindE m (λ x, k))
  (at level 20, m at level 99, k at level 200, only parsing).
Notation "m ~;; k" := (bindE m (λ _, k))
  (at level 100, k at level 200, right associativity, only parsing).

(** How the serving ends, if it does: [serve_forever] never returns; it
    raises, CancelledError when the task is cancelled or the listener closed.
    [served_env] is what the connection handlers and the other tasks did to
    the class-level state meanwhile. *)
Inductive served : Type :=
| StillServing
| ServingEnded (served_env : ServerState → ServerState) (err : exn).

(** The script of [start]: the exception of [ServerDB.start()], if any, and
    the serving. *)
Record start_script : Type := { ss_store_start : option exn; ss_served : served }.

(** Modelled from the spec: [ServerDB.start], the [start()] of the store's
    lifecycle (§6). *)
Definition store_start (sc : start_script) : Eff lifecycle_event unit :=
  emitE LcStoreStart ~;;
  match ss_store_start sc with
  | Some err => raiseE err
  | None => retE tt
  end.

Definition serve_forever (sc : start_script) : Eff lifecycle_event unit :=
  emitE LcServeForever ~;;
  match ss_served sc with
  | StillServing => pendingE
  | ServingEnded env err => modifyE env ~;; raiseE err
  end.

(** [async with cls._server: body]: leaving the block closes the listener
    and waits for it, and lets an exception through. *)
Definition async_with_server {A} (body : Eff lifecycle_event A) : Eff lifecycle_event A :=
  try_finallyE body
    (emitE (LcEvent EvListenerClose) ~;; emitE (LcEvent EvListenerWaitClosed)).

(** The except clauses of [start]. *)
Definition start_except (err : exn) : option (Eff lifecycle_event unit) :=
  match exn_type err with
  | CancelledError => Some (retE tt)
  | c => if is_Exception c then Some (emitE (LcLogStartError err)) else None
  end.

Definition start (sc : start_script) : Eff lifecycle_event unit :=
  server <~ getsE _server ;;
  match server with
  | None => raiseE (Exn RuntimeError (Txt "Server is not initialized."))
  | Some _ =>
      online <~ getsE _is_online ;;
      if online then raiseE (Exn RuntimeError (Txt "Server already start."))
      else
        store_start sc ~;;
        try_finallyE
          (try_exceptE
             (async_with_server
                (of_M (assign_is_online true) ~;;
                 emitE LcLogServerStart ~;;
                 serve_forever sc))
             start_except)
          (of_M stop)
  end.

(** The class attributes as the class body sets them. *)
Definition class_attributes : ServerState :=
  {| _cl_units := ∅; _server := None; _is_online := false;
     _server_name := "Dev_Server"; _allow_registration := true;
     _max_players := (-1)%Z |}.

Definition not_initialized_error : exn :=
  Exn RuntimeError (Txt "Server is not initialized.").
Definition already_start_error : exn :=
  Exn RuntimeError (Txt "Server already start.").

(** ** Bands of codes *)

Definition holds (r : exn + bool) : bool :=
  match r with
  | inr true => true
  | _ => false
  end.

(** How many of the four band predicates answer True on [v]. *)
Definition bands_holding (v : value) : nat :=
  Nat.b2n (holds (ResponseCode.is_auth v)) + Nat.b2n (holds (ResponseCode.is_net v))
  + Nat.b2n (holds (ResponseCode.is_file v)) + Nat.b2n (holds (ResponseCode.is_log v)).

(** ** Dispatch and sessions, for the statements *)

(** The argument is an instance of the class its parameter is annotated
    with. *)
Definition well_typed (hints : list (string * type_hint)) (kv : string * value) : bool :=
  match dict_get kv.1 hints with
  | Some (HClass c) => issubclass (type_of kv.2) c
  | _ => false
  end.

(** What the except clauses of the message loop send for [err]. *)
Definition except_events (cl_unit : ClUnit) (err : exn) : list event :=
  match exn_type err with
  | CancelledError | ConnectionAbortedError | IncompleteReadError
  | ConnectionResetError | KeyboardInterrupt | SystemExit => []
  | _ => [EvSendLogError (cl_id cl_unit) (TxtUnexpected (exn_str err))]
  end.

(** The classes the first except clause of the message loop names. *)
Definition is_disconnect_class (c : exn_class) : bool :=
  match c with
  | CancelledError | ConnectionAbortedError | IncompleteReadError
  | ConnectionResetError => true
  | _ => false
  end.

(** What the except clauses around [_auth] tell the peer about [err]. *)
Definition rejection_text (err : exn) : text :=
  match exn_type err with
  | TimeoutError => Txt "Timeout for auth."
  | ValueError => exn_str err
  | _ => TxtUnexpected (exn_str err)
  end.

(** The auth request every handshake starts with. *)
Definition auth_request (id : nat) : event := EvSendPackage id ResponseCode.AUTH_REQ [].

(** The outcome of [start] when the serving ended with [err] and [stop] then
    ran to its end. *)
Definition start_outcome_after (err : exn) : outcome unit :=
  match exn_type err with
  | CancelledError => Return tt
  | c => if is_Exception c then Return tt else Raise err
  end.

(** The effects of [start] up to its finally block, when the serving ended
    with [err]. *)
Definition start_events (err : exn) : list lifecycle_event :=
  [LcStoreStart; LcEvent (EvOnline true); LcLogServerStart; LcServeForever;
   LcEvent EvListenerClose; LcEvent EvListenerWaitClosed]
  ++ match exn_type err with
     | CancelledError => []
     | c => if is_Exception c then [LcLogStartError err] else []
     end.

(** ** More cases to run the model on *)

Module Cases.

(** [def net_say(cls, cl_unit: ClUnit, text: str)] with a body that raises
    [err] *)
Definition say_raising (err : exn) : NetFunc :=
  {| parameters := ["cls"; "cl_unit"; "text"];
     type_hints := inr [("cl_unit", HClass C_ClUnit); ("text", HClass C_str)];
     is_coroutine := false; call := λ _, raise err |}.

Definition say_hints : list (string * type_hint) :=
  [("cl_unit", HClass C_ClUnit); ("text", HClass C_str)].

Definition cancelled : exn := Exn CancelledError (Txt "").
Definition key_error : exn := Exn (OtherException "KeyError") (Txt "'room'").


Definition online : ServerState := Scenario.server ∅ true (-1).

End Cases.

(** * Properties *)

(** ** Running coroutines *)

Lemma bind_Return {A B} (m : M A) (k : A → M B) s a s1 t1 :
  m s = (Return a, s1, t1) →
  bind m k s = (run_outcome (k a s1), run_state (k a s1), t1 ++ run_trace (k a s1)).
Proof. intros H. unfold bind. rewrite H. by destruct (k a s1) as [[o s2] t2]. Qed.

Lemma bind_Raise {A B} (m : M A) (k : A → M B) s err s1 t1 :
  m s = (Raise err, s1, t1) → bind m k s = (Raise err, s1, t1).
Proof. intros H. unfold bind. by rewrite H. Qed.

Lemma bind_ret_l {A B} (a : A) (k : A → M B) s : bind (ret a) k s = k a s.
Proof. unfold bind, ret. by destruct (k a s) as [[o s2] t2]. Qed.

Lemma bind_silent {A B} (m : M A) (k : A → M B) s a s1 :
  m s = (Return a, s1, []) → bind m k s = k a s1.
Proof. intros H. unfold bind. rewrite H. by destruct (k a s1) as [[o s2] t2]. Qed.

Lemma bind_trace {A B} (m : M A) (k : A → M B) s :
  ∃ tr, run_trace (bind m k s) = run_trace (m s) ++ tr.
Proof.
  unfold bind. destruct (m s) as [[[a|err|] s1] t1]; simpl.
  - destruct (k a s1) as [[o s2] t2]. by exists t2.
  - exists []. by rewrite app_nil_r.
  - exists []. by rewrite app_nil_r.
Qed.

Lemma run_eta {A} (r : outcome A * ServerState * list event) :
  r = (run_outcome r, run_state r, run_trace r).
Proof. by destruct r as [[o s] t]. Qed.

(** Unfolds the plumbing of a straight-line coroutine. *)
Ltac run :=
  unfold bind, ret, raise, pending, gets, modify, emit, lift, send_package,
    send_log_error, disconnect, receive_package, await_receive, store_answer,
    run_outcome, run_state, run_trace in *;
  simpl in *.

Lemma set_cl_units_same f (s : ServerState) :
  f (_cl_units s) = _cl_units s → set_cl_units f s = s.
Proof. destruct s; unfold set_cl_units; simpl. by intros ->. Qed.

(** ** Dicts *)

Lemma dict_get_remove_eq {A} (k : string) (d : list (string * A)) :
  dict_get k (dict_remove k d) = None.
Proof.
  induction d as [|[k' v] d IH]; simpl; [done|].
  destruct (String.eqb k k') eqn:E; [done|]. simpl. by rewrite E.
Qed.

(** ** The handshake *)

Lemma server_is_full_spec (s : ServerState) :
  server_is_full s = true ↔
  (_max_players s ≠ -1 ∧ _max_players s ≤ Z.of_nat (size (_cl_units s)))%Z.
Proof.
  unfold server_is_full. rewrite andb_true_iff, negb_true_iff.
  rewrite Z.eqb_neq, Z.leb_le. done.
Qed.

(** C4: with a maximum other than -1 that the live-connection count has
    reached, [_auth] raises the capacity error before it sends or awaits
    anything, [_cl_handler] reports it, disconnects and leaves the
    live-connection set as it was; with the maximum -1 the handshake always
    gets to send its auth request, whatever the count. *)
Theorem auth_capacity (reg : gmap string NetFunc) (id : nat) (hs : handshake)
    (script : list tick) (s : ServerState) :
  ((_max_players s ≠ -1)%Z →
   (_max_players s ≤ Z.of_nat (size (_cl_units s)))%Z →
   _auth (init_unit id) hs s = (Raise full_error, s, []) ∧
   _cl_handler reg id hs script s =
     (Return tt, s, [EvSendLogError id (Txt "Server is full."); EvDisconnect id])) ∧
  (_max_players s = (-1)%Z →
   server_is_full s = false ∧
   ∃ tr, run_trace (_auth (init_unit id) hs s) =
         EvSendPackage id ResponseCode.AUTH_REQ [] :: tr).
Proof.
  split.
  - intros Hne Hle.
    assert (Hfull : server_is_full s = true) by (by apply server_is_full_spec).
    assert (Hauth : _auth (init_unit id) hs s = (Raise full_error, s, [])).
    { unfold _auth. run. by rewrite Hfull. }
    split; [done|].
    unfold _cl_handler. fold (init_unit id). unfold bind at 1, try_except.
    erewrite bind_Raise by exact Hauth. by run.
  - intros Hmax.
    assert (Hfull : server_is_full s = false).
    { unfold server_is_full. by rewrite Hmax. }
    split; [done|].
    unfold _auth. unfold bind at 1. unfold gets at 1. rewrite Hfull.
    match goal with
    | |- context [bind ?m ?k ?s0] =>
        destruct (bind_trace m k s0) as [tr Htr];
        destruct (bind m k s0) as [[o s2] t2]
    end.
    exists tr. simpl in *. by rewrite Htr.
Qed.

(** [maxPlayers=1] with alice live: a second handshake is refused; with no
    limit the auth request goes out. *)
Lemma auth_capacity_witness :
  (_auth (init_unit 2) (Scenario.handshake_of Scenario.login_reply)
         (Scenario.server Scenario.only_alice true 1)
   = (Raise full_error, Scenario.server Scenario.only_alice true 1, []) ∧
   _cl_handler Scenario.registry 2 (Scenario.handshake_of Scenario.login_reply) []
               (Scenario.server Scenario.only_alice true 1)
   = (Return tt, Scenario.server Scenario.only_alice true 1,
      [EvSendLogError 2 (Txt "Server is full."); EvDisconnect 2])) ∧
  (server_is_full (Scenario.server Scenario.only_alice true (-1)) = false ∧
   ∃ tr, run_trace (_auth (init_unit 2) (Scenario.handshake_of Scenario.login_reply)
                          (Scenario.server Scenario.only_alice true (-1)))
         = EvSendPackage 2 ResponseCode.AUTH_REQ [] :: tr).
Proof.
  split.
  - apply (auth_capacity Scenario.registry 2
             (Scenario.handshake_of Scenario.login_reply) []
             (Scenario.server Scenario.only_alice true 1)).
    + simpl. lia.
    + vm_compute. discriminate.
  - apply (auth_capacity Scenario.registry 2
             (Scenario.handshake_of Scenario.login_reply) []
             (Scenario.server Scenario.only_alice true (-1))).
    reflexivity.
Defined.

(** [ResponseCode] has no attribute [is_client_auth]. *)
Lemma getattr_is_client_auth :
  ResponseCode.getattr "is_client_auth" = inl (Exn AttributeError no_is_client_auth).
Proof. reflexivity. Qed.

(** [_auth] on a reply that is a mapping. *)
Lemma auth_on_mapping (cl_unit : ClUnit) env (d : kwargs) store (s : ServerState) :
  server_is_full s = false →
  _auth cl_unit {| hs_reply := {| tick_env := env; tick_recv := Got (VDict d) |};
                   hs_store := store |} s
  = (let code := default VNone (dict_get "code" d) in
     if truthy code then
       match ResponseCode.call code with
       | inr _ => Raise (Exn AttributeError no_is_client_auth)
       | inl err => Raise err
       end
     else Raise no_code_error,
     env s, [EvSendPackage (cl_id cl_unit) ResponseCode.AUTH_REQ []]).
Proof.
  intros Hfull. unfold _auth. run. rewrite Hfull. simpl.
  destruct (truthy (default VNone (dict_get "code" d))); simpl; [|done].
  by destruct (ResponseCode.call _).
Qed.

(** C1, at the code: a reply whose code is a member of [ResponseCode], the
    login answer 11 and the register answer 12 included, does not pass the
    code validation.  [ResponseCode] defines no [is_client_auth], so [_auth]
    raises AttributeError there, and [_cl_handler] reports an unexpected
    error, disconnects and never adds the connection to the live set. *)
Theorem auth_member_code_raises (reg : gmap string NetFunc) (id : nat)
    env (d : kwargs) store (script : list tick) (s : ServerState)
    (c : ResponseCode.t) :
  server_is_full s = false →
  dict_get "code" d = Some (ResponseCode.to_value c) →
  let hs := {| hs_reply := {| tick_env := env; tick_recv := Got (VDict d) |};
               hs_store := store |} in
  _auth (init_unit id) hs s
  = (Raise (Exn AttributeError no_is_client_auth), env s,
     [EvSendPackage id ResponseCode.AUTH_REQ []]) ∧
  _cl_handler reg id hs script s
  = (Return tt, env s,
     [EvSendPackage id ResponseCode.AUTH_REQ [];
      EvSendLogError id (TxtUnexpected no_is_client_auth);
      EvDisconnect id]).
Proof.
  intros Hfull Hcode hs.
  assert (Hauth : _auth (init_unit id) hs s
                  = (Raise (Exn AttributeError no_is_client_auth), env s,
                     [EvSendPackage id ResponseCode.AUTH_REQ []])).
  { unfold hs. rewrite auth_on_mapping by done. rewrite Hcode.
    by destruct c. }
  split; [done|].
  unfold _cl_handler. unfold bind at 1, try_except.
  erewrite bind_Raise by exact Hauth. by run.
Qed.

(** The login answer of bob, code 11 with login and password. *)
Lemma auth_member_code_raises_witness :
  let hs := Scenario.handshake_of Scenario.login_reply in
  let s := Scenario.server ∅ true (-1) in
  _auth (init_unit 2) hs s
  = (Raise (Exn AttributeError no_is_client_auth), s,
     [EvSendPackage 2 ResponseCode.AUTH_REQ []]) ∧
  _cl_handler Scenario.registry 2 hs [] s
  = (Return tt, s,
     [EvSendPackage 2 ResponseCode.AUTH_REQ [];
      EvSendLogError 2 (TxtUnexpected no_is_client_auth);
      EvDisconnect 2]).
Proof.
  apply (auth_member_code_raises Scenario.registry 2 (λ s, s) Scenario.login_reply
           None [] (Scenario.server ∅ true (-1)) ResponseCode.AUTH_ANS_LOGIN).
  - reflexivity.
  - reflexivity.
Defined.

(** No reply makes [_auth] return: the handshake never completes. *)
Lemma auth_never_returns (cl_unit : ClUnit) (hs : handshake) (s : ServerState)
    (cl_unit' : ClUnit) :
  run_outcome (_auth cl_unit hs s) ≠ Return cl_unit'.
Proof.
  destruct (server_is_full s) eqn:Hfull.
  - unfold _auth. run. by rewrite Hfull.
  - destruct hs as [[env [package|err]] store].
    + destruct package;
        try (unfold _auth; run; rewrite Hfull; simpl; discriminate).
      rewrite auth_on_mapping by done. simpl.
      destruct (truthy _); [|done]. by destruct (ResponseCode.call _).
    + unfold _auth. run. rewrite Hfull. simpl. discriminate.
Qed.

(** ** The message loop on one package *)

Lemma loop_body_no_code (reg : gmap string NetFunc) (cl_unit : ClUnit)
    (d : kwargs) (s : ServerState) :
  truthy (default VNone (dict_get "code" d)) = false →
  loop_body reg cl_unit (VDict d) s
  = (Return tt, s, [EvSendLogError (cl_id cl_unit) no_code_text]).
Proof. intros H. unfold loop_body, dict_pop. by rewrite H. Qed.

(** One turn of the loop while the server is online. *)
Lemma message_loop_step (reg : gmap string NetFunc) (cl_unit : ClUnit)
    (t : tick) (script : list tick) (s : ServerState) :
  _is_online s = true →
  message_loop reg cl_unit (t :: script) s
  = (receive_package <- await_receive t;;
     loop_body reg cl_unit receive_package;;
     message_loop reg cl_unit script) s.
Proof. intros H. simpl. unfold bind at 1. unfold gets at 1. rewrite H. simpl.
  by destruct (bind _ _ s) as [[o s2] t2]. Qed.

(** C8: a received mapping without a "code" field makes the loop send the
    error-log reply and nothing else: no exception, no disconnect, the
    class-level state (the live-connection set included) untouched; the loop
    then goes on with the next turn. *)
Theorem loop_missing_code (reg : gmap string NetFunc) (cl_unit : ClUnit)
    (d : kwargs) env (script : list tick) (s : ServerState) :
  dict_get "code" d = None →
  loop_body reg cl_unit (VDict d) s
  = (Return tt, s, [EvSendLogError (cl_id cl_unit) no_code_text]) ∧
  (_is_online s = true →
   let rest := message_loop reg cl_unit script (env s) in
   message_loop reg cl_unit ({| tick_env := env; tick_recv := Got (VDict d) |} :: script) s
   = (run_outcome rest, run_state rest,
      EvSendLogError (cl_id cl_unit) no_code_text :: run_trace rest)).
Proof.
  intros Hcode.
  assert (Hbody : ∀ s', loop_body reg cl_unit (VDict d) s'
                        = (Return tt, s', [EvSendLogError (cl_id cl_unit) no_code_text])).
  { intros s'. apply loop_body_no_code. by rewrite Hcode. }
  split; [apply Hbody|].
  intros Honline rest. rewrite message_loop_step by done.
  unfold bind at 1. unfold await_receive. run.
  rewrite Hbody. fold rest. by destruct rest as [[o s2] t2].
Qed.

(** bob, live and online, sends [{"x": 1}] and then nothing. *)
Lemma loop_missing_code_witness :
  let s := Scenario.server {[ KStr "bob" := Scenario.bob ]} true (-1) in
  loop_body Scenario.registry Scenario.bob (VDict [("x", VInt 1)]) s
  = (Return tt, s, [EvSendLogError 2 no_code_text]) ∧
  message_loop Scenario.registry Scenario.bob
    [Scenario.quiet (Got (VDict [("x", VInt 1)]))] s
  = (Pending, s, [EvSendLogError 2 no_code_text]).
Proof.
  pose proof (loop_missing_code Scenario.registry Scenario.bob [("x", VInt 1)]
                (λ s, s) []
                (Scenario.server {[ KStr "bob" := Scenario.bob ]} true (-1))
                eq_refl) as [Hbody Hloop].
  split; [exact Hbody | exact (Hloop eq_refl)].
Defined.

(** C10: a "code" field that is present but falsy is handled as a missing
    one, by the message loop (the same error-log reply, the loop goes on) and
    by the handshake (the same ValueError), and in neither as an unknown
    code. *)
Theorem falsy_code_is_missing_code (reg : gmap string NetFunc) (cl_unit : ClUnit)
    (d : kwargs) (v : value) env store (s : ServerState) :
  dict_get "code" d = Some v →
  truthy v = false →
  let missing := dict_remove "code" d in
  let hs d := {| hs_reply := {| tick_env := env; tick_recv := Got (VDict d) |};
                 hs_store := store |} in
  (loop_body reg cl_unit (VDict d) s = loop_body reg cl_unit (VDict missing) s ∧
   loop_body reg cl_unit (VDict d) s
   = (Return tt, s, [EvSendLogError (cl_id cl_unit) no_code_text])) ∧
  (_auth cl_unit (hs d) s = _auth cl_unit (hs missing) s ∧
   (server_is_full s = false →
    _auth cl_unit (hs d) s
    = (Raise no_code_error, env s,
       [EvSendPackage (cl_id cl_unit) ResponseCode.AUTH_REQ []]))).
Proof.
  intros Hcode Hfalsy missing hs.
  assert (Hmissing : dict_get "code" missing = None) by apply dict_get_remove_eq.
  split.
  - rewrite !loop_body_no_code; [done| | ].
    + by rewrite Hmissing.
    + by rewrite Hcode.
  - destruct (server_is_full s) eqn:Hfull.
    + split; [|done]. unfold _auth. run. by rewrite Hfull.
    + unfold hs. rewrite !auth_on_mapping by done.
      rewrite Hcode, Hmissing. simpl. by rewrite Hfalsy.
Qed.

(** The codes 0 and False. *)
Lemma falsy_code_is_missing_code_witness :
  let s := Scenario.server ∅ true (-1) in
  let hs d := {| hs_reply := {| tick_env := λ s, s; tick_recv := Got (VDict d) |};
                 hs_store := None |} in
  let d := [("code", VInt 0); ("net_func_name", VStr "ping")] in
  let d' := [("login", VStr "bob"); ("code", VBool false)] in
  (loop_body Scenario.registry Scenario.bob (VDict d) s
   = (Return tt, s, [EvSendLogError 2 no_code_text])) ∧
  (_auth (init_unit 2) (hs d') s
   = (Raise no_code_error, s, [EvSendPackage 2 ResponseCode.AUTH_REQ []])).
Proof.
  split.
  - apply (falsy_code_is_missing_code Scenario.registry Scenario.bob
             [("code", VInt 0); ("net_func_name", VStr "ping")] (VInt 0) (λ s, s) None
             (Scenario.server ∅ true (-1))); reflexivity.
  - apply (falsy_code_is_missing_code Scenario.registry (init_unit 2)
             [("login", VStr "bob"); ("code", VBool false)] (VBool false) (λ s, s) None
             (Scenario.server ∅ true (-1))); reflexivity.
Defined.

(** ** stop *)

Lemma live_ids_complete (s : ServerState) (k : key) (cl_unit : ClUnit) :
  _cl_units s !! k = Some cl_unit → cl_id cl_unit ∈ live_ids s.
Proof.
  intros H. unfold live_ids. apply list_elem_of_fmap. exists cl_unit. split; [done|].
  apply list_elem_of_fmap. exists (k, cl_unit). split; [done|].
  by apply elem_of_map_to_list.
Qed.

(** C2: offline, [stop] raises and changes nothing; online, it first assigns
    False to the online flag, then issues (through [asyncio.gather]) the
    disconnect of every unit of the live-connection set, and ends with the
    flag False and the set empty. *)
Theorem stop_spec (s : ServerState) :
  (_is_online s = false → stop s = (Raise not_working_error, s, [])) ∧
  (_is_online s = true →
   ∃ tail,
     stop s = (Return tt, set_cl_units (λ _, ∅) (set_is_online false s),
               EvOnline false :: EvGatherDisconnect (live_ids s) :: tail) ∧
     (∀ k cl_unit, _cl_units s !! k = Some cl_unit → cl_id cl_unit ∈ live_ids s) ∧
     (∀ e, e ∈ tail → ∀ b, e ≠ EvOnline b) ∧
     _is_online (run_state (stop s)) = false ∧
     _cl_units (run_state (stop s)) = ∅).
Proof.
  split; intros Honline.
  - unfold stop. run. by rewrite Honline.
  - assert (Hstop : ∃ tail,
        stop s = (Return tt, set_cl_units (λ _, ∅) (set_is_online false s),
                  EvOnline false :: EvGatherDisconnect (live_ids s) :: tail) ∧
        ∀ e, e ∈ tail → ∀ b, e ≠ EvOnline b).
    { unfold stop, assign_is_online, live_ids. run. rewrite Honline. simpl.
      destruct (_server s); simpl; eexists; (split; [reflexivity|]);
        intros e He b ->;
        repeat (apply elem_of_cons in He as [He|He]; [discriminate|]);
        by apply elem_of_nil in He. }
    destruct Hstop as (tail & Hstop & Htail). exists tail.
    split; [done|]. split; [apply live_ids_complete|]. split; [done|].
    by rewrite Hstop.
Qed.

(** alice and bob live: both get their disconnect. *)
Lemma stop_spec_witness :
  let units : gmap key ClUnit :=
    {[ KStr "alice" := Scenario.alice; KStr "bob" := Scenario.bob ]} in
  stop (Scenario.server units false (-1))
  = (Raise not_working_error, Scenario.server units false (-1), []) ∧
  ∃ tail,
    stop (Scenario.server units true (-1))
    = (Return tt, Scenario.server ∅ false (-1),
       EvOnline false :: EvGatherDisconnect (live_ids (Scenario.server units true (-1)))
         :: tail).
Proof.
  intros units. split.
  - apply (stop_spec (Scenario.server units false (-1))). reflexivity.
  - destruct (proj2 (stop_spec (Scenario.server units true (-1))) eq_refl)
      as (tail & Hstop & _).
    exists tail. exact Hstop.
Defined.

(** ** Dispatch *)

Lemma dict_get_remove_ne {A} (k k' : string) (d : list (string * A)) :
  String.eqb k k' = false → dict_get k (dict_remove k' d) = dict_get k d.
Proof.
  intros Hne. induction d as [|[k0 v] d IH]; simpl; [done|].
  destruct (String.eqb k' k0) eqn:E'.
  - apply String.eqb_eq in E' as <-. by rewrite Hne.
  - simpl. by rewrite IH.
Qed.

Lemma dict_has_remove_ne {A} (k k' : string) (d : list (string * A)) :
  String.eqb k k' = false → dict_has k (dict_remove k' d) = dict_has k d.
Proof. intros Hne. unfold dict_has. by rewrite dict_get_remove_ne. Qed.

Lemma find_reserved_None (d : kwargs) :
  dict_has "cls" d = false → dict_has "func_name" d = false →
  List.find (λ kv, String.eqb kv.1 "cls" || String.eqb kv.1 "func_name") d = None.
Proof.
  unfold dict_has. induction d as [|[k v] d IH]; [done|].
  cbn [dict_get List.find fst].
  rewrite (String.eqb_sym k "cls"), (String.eqb_sym k "func_name").
  destruct (String.eqb "cls" k); [done|].
  destruct (String.eqb "func_name" k); [done|]. cbn [orb]. apply IH.
Qed.

Lemma call_kwargs_ok (cl_unit : ClUnit) (d : kwargs) :
  dict_has "cl_unit" d = false → dict_has "cls" d = false →
  dict_has "func_name" d = false →
  call_kwargs cl_unit d = inr (("cl_unit", VClUnit (cl_id cl_unit)) :: d).
Proof.
  intros H1 H2 H3. unfold call_kwargs. rewrite H1.
  by rewrite find_reserved_None.
Qed.

Lemma eq_int_truthy (v : value) (n : Z) : n ≠ 0%Z → eq_int v n = true → truthy v = true.
Proof.
  intros Hn. unfold eq_int. destruct v as [|b|m| | | | |]; simpl; try done.
  - destruct b; [done|]. intros Heq%Z.eqb_eq. by destruct Hn.
  - intros Heq%Z.eqb_eq. subst m. by apply negb_true_iff, Z.eqb_neq.
Qed.

(** The loop on a package of the remote-procedure-call band. *)
Lemma loop_body_net (reg : gmap string NetFunc) (cl_unit : ClUnit) (d : kwargs)
    (code : value) (s : ServerState) :
  dict_get "code" d = Some code →
  eq_int code 20 = true →
  dict_has "cl_unit" d = false → dict_has "cls" d = false →
  dict_has "func_name" d = false →
  loop_body reg cl_unit (VDict d) s
  = _call_func reg (default VNone (dict_get "net_func_name" d))
      (("cl_unit", VClUnit (cl_id cl_unit))
         :: dict_remove "net_func_name" (dict_remove "code" d)) s.
Proof.
  intros Hcode Heq H1 H2 H3. unfold loop_body, dict_pop. rewrite Hcode. simpl.
  rewrite (eq_int_truthy code 20) by done. simpl.
  rewrite bind_ret_l. unfold ResponseCode.is_net. simpl ResponseCode.int_value.
  rewrite Heq. simpl lift. rewrite bind_ret_l.
  rewrite call_kwargs_ok by (by rewrite !dict_has_remove_ne).
  simpl lift. rewrite bind_ret_l.
  by rewrite dict_get_remove_ne.
Qed.

(** C6: a method name the registry does not hold makes [_call_func] return
    without an exception, having called no function and sent nothing, its
    only effect the debug log; the message loop that received the request
    goes on: no reply, no disconnect, the class-level state untouched. *)
Theorem call_func_unknown_name (reg : gmap string NetFunc) (name : string)
    (kw : kwargs) (cl_unit : ClUnit) (d : kwargs) (code : value) (s : ServerState) :
  reg !! name = None →
  _call_func reg (VStr name) kw s
  = (Return tt, s, [EvLog (LogFuncNotFound (VStr name))]) ∧
  (dict_get "code" d = Some code → eq_int code 20 = true →
   dict_get "net_func_name" d = Some (VStr name) →
   dict_has "cl_unit" d = false → dict_has "cls" d = false →
   dict_has "func_name" d = false →
   loop_body reg cl_unit (VDict d) s
   = (Return tt, s, [EvLog (LogFuncNotFound (VStr name))])).
Proof.
  intros Habsent.
  assert (Hcall : ∀ kw, _call_func reg (VStr name) kw s
                        = (Return tt, s, [EvLog (LogFuncNotFound (VStr name))])).
  { intros kw'. unfold _call_func, network_funcs_get. simpl. rewrite Habsent. by run. }
  split; [apply Hcall|].
  intros Hcode Heq Hname H1 H2 H3.
  rewrite (loop_body_net reg cl_unit d code) by done.
  rewrite Hname. apply Hcall.
Qed.

(** bob asks for "pong", which nobody registered. *)
Lemma call_func_unknown_name_witness :
  let s := Scenario.server {[ KStr "bob" := Scenario.bob ]} true (-1) in
  _call_func Scenario.registry (VStr "pong") [("cl_unit", VClUnit 2)] s
  = (Return tt, s, [EvLog (LogFuncNotFound (VStr "pong"))]) ∧
  loop_body Scenario.registry Scenario.bob
    (VDict [("code", VInt 20); ("net_func_name", VStr "pong"); ("n", VInt 1)]) s
  = (Return tt, s, [EvLog (LogFuncNotFound (VStr "pong"))]).
Proof.
  intros s.
  pose proof (call_func_unknown_name Scenario.registry "pong"
                [("cl_unit", VClUnit 2)] Scenario.bob
                [("code", VInt 20); ("net_func_name", VStr "pong"); ("n", VInt 1)]
                (VInt 20) s eq_refl) as [Hcall Hloop].
  split; [exact Hcall|].
  exact (Hloop eq_refl eq_refl eq_refl eq_refl eq_refl eq_refl).
Defined.

Lemma valid_kwargs_of_idemp (func : NetFunc) (kw : kwargs) :
  valid_kwargs_of func (valid_kwargs_of func kw) = valid_kwargs_of func kw.
Proof. unfold valid_kwargs_of. by apply list_filter_filter_l. Qed.

Lemma valid_kwargs_of_undeclared (func : NetFunc) (extra : kwargs) :
  (∀ k v, (k, v) ∈ extra → k ∉ parameters func) → valid_kwargs_of func extra = [].
Proof.
  unfold valid_kwargs_of. induction extra as [|[k v] extra IH]; intros Hextra; [done|].
  rewrite filter_cons_False.
  - apply IH. intros k' v' Hin. apply (Hextra k' v'). by apply elem_of_cons; right.
  - simpl. apply (Hextra k v). by apply elem_of_cons; left.
Qed.

(** The type check neither changes the state nor logs unless it finds a
    mismatch. *)
Lemma check_types_passed hints (items : kwargs) (s s' : ServerState) tr :
  check_types hints items s = (Return true, s', tr) → s' = s ∧ tr = [].
Proof.
  revert s' tr. induction items as [|[arg_name arg_value] items IH]; intros s' tr; simpl.
  - unfold ret. by intros [= <- <-].
  - destruct (isinstance arg_value _) as [err|inst]; simpl.
    + by rewrite (bind_Raise _ _ s err s []).
    + rewrite bind_ret_l.
      destruct (negb inst && negb (is_Any _)); [|apply IH].
      run. by intros [=].
Qed.

(** C7: [_call_func] hands the registered function the keyword arguments
    whose names are among its declared parameters, those and no others: once
    the type check has passed, the function is called on exactly
    [valid_kwargs], in the state of the dispatch, and what the dispatch does
    is what that call does.  The undeclared keys play no part: dispatch does
    the same with and without them, so they alone never keep the call from
    being made. *)
Theorem call_func_filters_kwargs (reg : gmap string NetFunc) (name : string)
    (func : NetFunc) (kw : kwargs) (s : ServerState) :
  reg !! name = Some func →
  let valid_kwargs := valid_kwargs_of func kw in
  (∀ k v, (k, v) ∈ valid_kwargs ↔ (k, v) ∈ kw ∧ k ∈ parameters func) ∧
  _call_func reg (VStr name) kw s = _call_func reg (VStr name) valid_kwargs s ∧
  (∀ extra, (∀ k v, (k, v) ∈ extra → k ∉ parameters func) →
            _call_func reg (VStr name) (kw ++ extra) s
            = _call_func reg (VStr name) kw s) ∧
  (∀ hints, type_hints func = inr hints →
            run_outcome (check_types hints valid_kwargs s) = Return true →
            _call_func reg (VStr name) kw s
            = try_except (invoke name func valid_kwargs)
                         (call_except (VStr name)) s) ∧
  (∀ hints, type_hints func = inr hints →
            run_outcome (check_types hints valid_kwargs s) = Return true →
            let called := EvCall name (is_coroutine func) valid_kwargs in
            let r := call func valid_kwargs s in
            _call_func reg (VStr name) kw s
            = match run_outcome r with
              | Return _ => (Return tt, run_state r, called :: run_trace r)
              | Raise err =>
                  if is_Exception (exn_type err)
                  then (Return tt, run_state r,
                        called :: run_trace r ++ [EvLog (LogCallError (VStr name) err)])
                  else (Raise err, run_state r, called :: run_trace r)
              | Pending => (Pending, run_state r, called :: run_trace r)
              end).
Proof.
  intros Hreg valid_kwargs.
  assert (Hcall : ∀ kw1 kw2, valid_kwargs_of func kw1 = valid_kwargs_of func kw2 →
            _call_func reg (VStr name) kw1 s = _call_func reg (VStr name) kw2 s).
  { intros kw1 kw2 Heq. unfold _call_func, network_funcs_get. simpl.
    rewrite Hreg. simpl. rewrite !bind_ret_l. by rewrite Heq. }
  assert (Hinvoke : ∀ hints, type_hints func = inr hints →
            run_outcome (check_types hints valid_kwargs s) = Return true →
            _call_func reg (VStr name) kw s
            = try_except (invoke name func valid_kwargs) (call_except (VStr name)) s).
  { intros hints Hhints Hcheck.
    unfold _call_func, network_funcs_get. simpl.
    rewrite Hreg. simpl. rewrite bind_ret_l. rewrite Hhints. simpl lift.
    rewrite bind_ret_l. fold valid_kwargs.
    destruct (check_types hints valid_kwargs s) as [[o s'] tr] eqn:Hrun.
    unfold run_outcome in Hcheck. simpl in Hcheck. subst o.
    destruct (check_types_passed _ _ _ _ _ Hrun) as [-> ->].
    erewrite bind_Return by exact Hrun. simpl. by rewrite <- run_eta. }
  split; [|split; [|split; [|split]]].
  - intros k v. unfold valid_kwargs, valid_kwargs_of.
    rewrite list_elem_of_filter. simpl. tauto.
  - apply Hcall. symmetry. apply valid_kwargs_of_idemp.
  - intros extra Hextra. apply Hcall.
    pose proof (valid_kwargs_of_undeclared func extra Hextra) as Hnil.
    unfold valid_kwargs_of in *. by rewrite filter_app, Hnil, app_nil_r.
  - exact Hinvoke.
  - intros hints Hhints Hcheck called r. rewrite (Hinvoke hints) by done.
    unfold try_except, invoke, call_except. unfold bind at 1. unfold emit at 1.
    unfold r, run_outcome, run_state, run_trace.
    destruct (call func valid_kwargs s) as [[[[]|err|] s'] tr]; simpl; try done.
    destruct (is_Exception (exn_type err)); by run.
Qed.

(** "echo" sends back the text it is called with, and its call would fail
    on an argument it does not declare: dispatched with [cl_unit], [text] and
    the field [colour], it is called with [cl_unit] and [text] and answers. *)
Lemma call_func_filters_kwargs_witness :
  let s := Scenario.server {[ KStr "bob" := Scenario.bob ]} true (-1) in
  let kw := [("cl_unit", VClUnit 2); ("text", VStr "hi"); ("colour", VInt 3)] in
  _call_func {[ "echo" := Scenario.net_echo ]} (VStr "echo") kw s
  = (Return tt, s,
     [EvCall "echo" true [("cl_unit", VClUnit 2); ("text", VStr "hi")];
      EvSendPackage 2 ResponseCode.LOG_INF [("text", VStr "hi")]]).
Proof.
  intros s kw.
  assert (Hreg : ({[ "echo" := Scenario.net_echo ]} : gmap string NetFunc) !! "echo"
                 = Some Scenario.net_echo) by reflexivity.
  destruct (call_func_filters_kwargs {[ "echo" := Scenario.net_echo ]} "echo"
              Scenario.net_echo kw s Hreg) as (_ & _ & _ & _ & Hcalled).
  rewrite (Hcalled _ eq_refl eq_refl). reflexivity.
Defined.

(** C5, at the code: [_call_func] does raise to its caller.  An argument
    bound to a declared parameter without annotation (or annotated Any) is
    checked with [isinstance(arg_value, Any)] before [expected_type is not
    Any] is looked at, and that is a TypeError, raised outside the try block:
    nothing is logged, the function is not called. *)
Theorem call_func_unannotated_raises (reg : gmap string NetFunc) (name : string)
    (func : NetFunc) hints (kw : kwargs) (arg_name : string) (arg_value : value)
    (rest : kwargs) (s : ServerState) :
  reg !! name = Some func →
  type_hints func = inr hints →
  valid_kwargs_of func kw = (arg_name, arg_value) :: rest →
  default HAny (dict_get arg_name hints) = HAny →
  _call_func reg (VStr name) kw s
  = (Raise (Exn TypeError (TxtIsinstance HAny)), s, []).
Proof.
  intros Hreg Hhints Hvalid Hany.
  unfold _call_func, network_funcs_get. simpl.
  rewrite Hreg. simpl. rewrite bind_ret_l. rewrite Hhints. simpl lift.
  rewrite bind_ret_l. rewrite Hvalid. simpl check_types. rewrite Hany. by run.
Qed.

(** [def net_ping(cls, cl_unit)] dispatched with the [cl_unit] the message
    loop always passes. *)
Lemma call_func_unannotated_raises_witness :
  let s := Scenario.server {[ KStr "bob" := Scenario.bob ]} true (-1) in
  _call_func Scenario.registry (VStr "ping") [("cl_unit", VClUnit 2)] s
  = (Raise (Exn TypeError (TxtIsinstance HAny)), s, []).
Proof.
  intros s.
  apply (call_func_unannotated_raises Scenario.registry "ping" Scenario.net_ping []
           [("cl_unit", VClUnit 2)] "cl_unit" (VClUnit 2) [] s);
    reflexivity.
Defined.

(** The same request through the message loop ends the connection. *)
Example ping_ends_session :
  session Scenario.registry Scenario.bob
    [Scenario.quiet (Got (VDict [("code", VInt 20); ("net_func_name", VStr "ping")]))]
    (Scenario.server ∅ true (-1))
  = (Return tt, Scenario.server ∅ true (-1),
     [EvLog (LogConnected (VStr "bob"));
      EvSendLogError 2 (TxtUnexpected (TxtIsinstance HAny));
      EvDisconnect 2;
      EvLog (LogDisconnected (VStr "bob"))]).
Proof. vm_compute. reflexivity. Qed.

(** What of C5 the code does keep: a mismatch with a declared class is logged
    and ends the dispatch before the call. *)
Lemma call_func_mismatch_returns (reg : gmap string NetFunc) (name : string)
    (func : NetFunc) hints (kw : kwargs) (arg_name : string) (arg_value : value)
    (rest : kwargs) (c : pyclass) (s : ServerState) :
  reg !! name = Some func →
  type_hints func = inr hints →
  valid_kwargs_of func kw = (arg_name, arg_value) :: rest →
  dict_get arg_name hints = Some (HClass c) →
  issubclass (type_of arg_value) c = false →
  _call_func reg (VStr name) kw s
  = (Return tt, s, [EvLog (LogTypeMismatch arg_name (HClass c) (type_of arg_value))]).
Proof.
  intros Hreg Hhints Hvalid Hhint Hsub.
  unfold _call_func, network_funcs_get. simpl.
  rewrite Hreg. simpl. rewrite bind_ret_l. rewrite Hhints. simpl lift.
  rewrite bind_ret_l. rewrite Hvalid. simpl check_types. rewrite Hhint. simpl.
  rewrite Hsub. by run.
Qed.

(** And an [Exception] of the called function is caught and logged. *)
Lemma call_func_exception_logged (reg : gmap string NetFunc) (name : string)
    (func : NetFunc) hints (kw : kwargs) (err : exn) (s s' : ServerState) tr :
  reg !! name = Some func →
  type_hints func = inr hints →
  check_types hints (valid_kwargs_of func kw) s = (Return true, s, []) →
  call func (valid_kwargs_of func kw) s = (Raise err, s', tr) →
  is_Exception (exn_type err) = true →
  _call_func reg (VStr name) kw s
  = (Return tt, s',
     EvCall name (is_coroutine func) (valid_kwargs_of func kw)
       :: tr ++ [EvLog (LogCallError (VStr name) err)]).
Proof.
  intros Hreg Hhints Hcheck Hcall Hexc.
  unfold _call_func, network_funcs_get. simpl.
  rewrite Hreg. simpl. rewrite bind_ret_l. rewrite Hhints. simpl lift.
  rewrite bind_ret_l.
  rewrite (bind_silent _ _ _ _ _ Hcheck).
  unfold try_except, invoke, call_except.
  unfold bind at 1. unfold emit at 1. rewrite Hcall. rewrite Hexc. by run.
Qed.

(** ** The session and its cleanup *)

Lemma cleanup_run (cl_unit : ClUnit) (k : key) (s : ServerState) :
  hash_key (login cl_unit) = Some k →
  cleanup cl_unit s
  = (Return tt, set_cl_units (delete k) s, cleanup_events cl_unit).
Proof. intros Hk. unfold cleanup, cl_units_pop, hashed. rewrite Hk. by run. Qed.

Lemma cl_units_set_run (cl_unit : ClUnit) (k : key) (s : ServerState) :
  hash_key (login cl_unit) = Some k →
  cl_units_set cl_unit s = (Return tt, set_cl_units (insert k cl_unit) s, []).
Proof. intros Hk. unfold cl_units_set, hashed. rewrite Hk. by run. Qed.

(** The session, once the unit is in the live set. *)
Lemma session_run (reg : gmap string NetFunc) (cl_unit : ClUnit) (k : key)
    (script : list tick) (s : ServerState) :
  hash_key (login cl_unit) = Some k →
  let guarded := try_finally
                   (try_except (message_loop reg cl_unit script) (loop_except cl_unit))
                   (cleanup cl_unit)
                   (set_cl_units (insert k cl_unit) s) in
  session reg cl_unit script s
  = (run_outcome guarded, run_state guarded,
     EvLog (LogConnected (login cl_unit)) :: run_trace guarded).
Proof.
  intros Hk guarded. unfold session.
  rewrite (bind_silent _ _ _ _ _ (cl_units_set_run cl_unit k s Hk)).
  unfold bind at 1. unfold emit at 1. fold guarded. by destruct guarded as [[o s2] t2].
Qed.

(** A finally block that is [cleanup] ran unless the coroutine is pending. *)
Lemma try_finally_cleanup {A} (m : M A) (cl_unit : ClUnit) (k : key) (s : ServerState) :
  hash_key (login cl_unit) = Some k →
  let r := try_finally m (cleanup cl_unit) s in
  run_outcome r ≠ Pending →
  run_outcome r = run_outcome (m s) ∧
  run_state r = set_cl_units (delete k) (run_state (m s)) ∧
  run_trace r = run_trace (m s) ++ cleanup_events cl_unit.
Proof.
  intros Hk r. unfold r, try_finally.
  destruct (m s) as [[[a|err|] s1] t1]; rewrite ?(cleanup_run cl_unit k) by done;
    simpl; done.
Qed.

Lemma message_loop_offline (reg : gmap string NetFunc) (cl_unit : ClUnit)
    (script : list tick) (s : ServerState) :
  _is_online s = false → message_loop reg cl_unit script s = (Return tt, s, []).
Proof. intros H. destruct script; simpl; run; by rewrite H. Qed.

Lemma message_loop_receive_failed (reg : gmap string NetFunc) (cl_unit : ClUnit)
    env (err : exn) (script : list tick) (s : ServerState) :
  _is_online s = true →
  message_loop reg cl_unit ({| tick_env := env; tick_recv := Failed err |} :: script) s
  = (Raise err, env s, []).
Proof. intros H. rewrite message_loop_step by done. by run. Qed.

(** C3: however the message loop is left, the finally block has popped the
    connection's login from the live-connection set and awaited the unit's
    disconnect, last of all the transport effects.  The loop is left when the
    server is offline, and when a receive fails, be it with a disconnect-class
    error, a cancellation or any other exception.  Popping a login that is
    no longer in the set is no error and changes nothing. *)
Theorem session_cleanup (reg : gmap string NetFunc) (cl_unit : ClUnit) (k : key)
    (script : list tick) (s : ServerState) :
  hash_key (login cl_unit) = Some k →
  (run_outcome (session reg cl_unit script s) ≠ Pending →
   _cl_units (run_state (session reg cl_unit script s)) !! k = None ∧
   ∃ pre, run_trace (session reg cl_unit script s) = pre ++ cleanup_events cl_unit) ∧
  (_is_online s = false →
   run_outcome (session reg cl_unit script s) = Return tt) ∧
  (_is_online s = true → ∀ env err,
   run_outcome (session reg cl_unit
                  ({| tick_env := env; tick_recv := Failed err |} :: script) s)
   = outcome_after cl_unit err) ∧
  (∀ s', _cl_units s' !! k = None →
         cleanup cl_unit s' = (Return tt, s', cleanup_events cl_unit)).
Proof.
  intros Hk. split; [|split; [|split]].
  - rewrite (session_run reg cl_unit k) by done. unfold run_outcome at 1. simpl.
    intros Hexit.
    destruct (try_finally_cleanup
                (try_except (message_loop reg cl_unit script) (loop_except cl_unit))
                cl_unit k (set_cl_units (insert k cl_unit) s) Hk Hexit)
      as (_ & Hstate & Htrace).
    unfold run_state at 1, run_trace at 1. simpl. split.
    + rewrite Hstate. simpl. apply lookup_delete_eq.
    + rewrite Htrace. by eexists (_ :: _).
  - intros Hoff. rewrite (session_run reg cl_unit k) by done.
    unfold run_outcome at 1. simpl.
    unfold try_finally, try_except. rewrite message_loop_offline by done.
    rewrite (cleanup_run cl_unit k) by done. done.
  - intros Hon env err. rewrite (session_run reg cl_unit k) by done.
    unfold run_outcome at 1. cbn [fst].
    unfold try_finally, try_except. rewrite message_loop_receive_failed by done.
    unfold outcome_after.
    destruct (loop_except cl_unit err) as [h|] eqn:Hh.
    + assert (Hret : ∀ s0, ∃ tr, h s0 = (Return tt, s0, tr)).
      { intros s0. unfold loop_except in Hh.
        destruct (exn_type err); simpl in Hh; try discriminate;
          injection Hh as <-; by eexists. }
      destruct (Hret (env (set_cl_units (insert k cl_unit) s))) as [tr ->].
      rewrite (cleanup_run cl_unit k) by done. done.
    + rewrite (cleanup_run cl_unit k) by done. done.
  - intros s' Habsent. rewrite (cleanup_run cl_unit k) by done.
    rewrite set_cl_units_same; [done|]. by apply delete_id.
Qed.

(** bob's session: a codeless package, then the peer resets the connection. *)
Lemma session_cleanup_witness :
  let script := [Scenario.quiet (Got (VDict [("x", VInt 1)]));
                 Scenario.quiet (Failed (Exn ConnectionResetError (Txt "reset")))] in
  let r := session Scenario.registry Scenario.bob script
             (Scenario.server Scenario.only_alice true (-1)) in
  _cl_units (run_state r) !! KStr "bob" = None ∧
  ∃ pre, run_trace r = pre ++ cleanup_events Scenario.bob.
Proof.
  intros script r.
  apply (session_cleanup Scenario.registry Scenario.bob (KStr "bob") script
           (Scenario.server Scenario.only_alice true (-1)) eq_refl).
  vm_compute. discriminate.
Defined.

(** Each way out of the loop, on bob's session. *)
Example session_exits :
  let s := Scenario.server ∅ true (-1) in
  let run script := session Scenario.registry Scenario.bob script s in
  let after (err : exn) := run [Scenario.quiet (Failed err)] in
  (* the server went offline during the await *)
  run [Scenario.stopping (Got (VDict []))]
  = (Return tt, Scenario.server ∅ false (-1),
     EvLog (LogConnected (VStr "bob")) :: EvSendLogError 2 no_code_text
       :: cleanup_events Scenario.bob) ∧
  (* disconnect-class failures and cancellation *)
  after (Exn ConnectionResetError (Txt "reset"))
  = (Return tt, s, EvLog (LogConnected (VStr "bob")) :: cleanup_events Scenario.bob) ∧
  after (Exn CancelledError (Txt ""))
  = (Return tt, s, EvLog (LogConnected (VStr "bob")) :: cleanup_events Scenario.bob) ∧
  (* any other exception *)
  after (Exn (OtherException "UnpackException") (Txt "bad frame"))
  = (Return tt, s,
     EvLog (LogConnected (VStr "bob"))
       :: EvSendLogError 2 (TxtUnexpected (Txt "bad frame"))
       :: cleanup_events Scenario.bob) ∧
  (* a BaseException the handler does not catch *)
  after (Exn KeyboardInterrupt (Txt ""))
  = (Raise (Exn KeyboardInterrupt (Txt "")), s,
     EvLog (LogConnected (VStr "bob")) :: cleanup_events Scenario.bob).
Proof. vm_compute. repeat split. Qed.

(** C9: a connection whose login hashes to a key the live-connection set
    already holds takes that entry over: after line 177 the key maps to the
    new unit, the set has not grown, and the earlier unit is no longer the
    one tracked.  When the earlier connection's loop ends, its cleanup pops
    the shared key: the entry of the new connection goes, while only the
    earlier unit is disconnected. *)
Theorem same_login_replaces (reg : gmap string NetFunc) (old new : ClUnit) (k : key)
    (s : ServerState) :
  hash_key (login new) = Some k →
  hash_key (login old) = Some k →
  cl_id old ≠ cl_id new →
  _cl_units s !! k = Some old →
  _is_online s = true →
  let joining := session reg new [] s in
  let joined := run_state joining in
  (run_outcome joining = Pending ∧
   run_trace joining = [EvLog (LogConnected (login new))] ∧
   _cl_units joined = <[k := new]> (_cl_units s) ∧
   _cl_units joined !! k = Some new ∧
   _cl_units joined !! k ≠ Some old ∧
   size (_cl_units joined) = size (_cl_units s)) ∧
  (let leaving := cleanup old joined in
   run_outcome leaving = Return tt ∧
   run_trace leaving = cleanup_events old ∧
   _cl_units (run_state leaving) !! k = None ∧
   _cl_units (run_state leaving) = delete k (_cl_units s)).
Proof.
  intros Hnew Hold Hne Hlive Honline joining joined.
  assert (Hjoin : joining = (Pending, set_cl_units (insert k new) s,
                             [EvLog (LogConnected (login new))])).
  { unfold joining. rewrite (session_run reg new k) by done.
    unfold try_finally, try_except. simpl message_loop.
    unfold bind, gets, pending. simpl. by rewrite Honline. }
  unfold joined. rewrite Hjoin. unfold run_outcome, run_state, run_trace. simpl.
  split.
  - repeat split.
    + apply lookup_insert_eq.
    + rewrite lookup_insert_eq. intros [= Heq]. apply Hne. by rewrite Heq.
    + apply map_size_insert_Some. by rewrite Hlive.
  - rewrite (cleanup_run old k) by done. simpl. repeat split.
    + apply lookup_delete_eq.
    + apply delete_insert_eq.
Qed.

(** alice is live; a second connection logs in as alice; the first one
    leaves. *)
Lemma same_login_replaces_witness :
  let s := Scenario.server Scenario.only_alice true (-1) in
  let joined := run_state (session Scenario.registry Scenario.alice' [] s) in
  (_cl_units joined !! KStr "alice" = Some Scenario.alice' ∧
   size (_cl_units joined) = 1) ∧
  (run_trace (cleanup Scenario.alice joined) = cleanup_events Scenario.alice ∧
   _cl_units (run_state (cleanup Scenario.alice joined)) !! KStr "alice" = None).
Proof.
  intros s joined.
  assert (Hid : cl_id Scenario.alice ≠ cl_id Scenario.alice') by (simpl; lia).
  destruct (same_login_replaces Scenario.registry Scenario.alice Scenario.alice'
              (KStr "alice") s eq_refl eq_refl Hid eq_refl eq_refl)
    as [(_ & _ & _ & Hnew & _ & Hsize) (_ & Htrace & Hgone & _)].
  split; [split|split].
  - exact Hnew.
  - etrans; [exact Hsize | reflexivity].
  - exact Htrace.
  - exact Hgone.
Defined.

(** ** The handler as a whole *)

(** With [_auth] never returning, no run of [_cl_handler] reaches line 177:
    the handler ends, with the handshake's exception when that is not an
    [Exception], the live-connection set is the one the other tasks left, and
    no "is connected" is logged. *)
Lemma cl_handler_never_joins (reg : gmap string NetFunc) (id : nat) (hs : handshake)
    (script : list tick) (s : ServerState) :
  let r := _cl_handler reg id hs script s in
  run_outcome r ≠ Pending ∧
  (run_state r = s ∨ run_state r = tick_env (hs_reply hs) s) ∧
  ∀ who, EvLog (LogConnected who) ∉ run_trace r.
Proof.
  intros r.
  assert (Hauth : ∃ err s' tr,
             _auth (init_unit id) hs s = (Raise err, s', tr) ∧
             (s' = s ∨ s' = tick_env (hs_reply hs) s) ∧
             (tr = [] ∨ tr = [EvSendPackage id ResponseCode.AUTH_REQ []])).
  { destruct (server_is_full s) eqn:Hfull.
    - exists full_error, s, []. split; [|by auto]. unfold _auth. run. by rewrite Hfull.
    - destruct hs as [[env [package|err]] store].
      + destruct package;
          try (eexists _, _, _; split;
               [unfold _auth; run; rewrite Hfull; simpl; reflexivity|by auto]).
        rewrite auth_on_mapping by done. simpl.
        destruct (truthy _); [|by eexists _, _, _; eauto].
        destruct (ResponseCode.call _); by eexists _, _, _; eauto.
      + eexists _, _, _. split; [|by auto].
        unfold _auth. run. rewrite Hfull. simpl. reflexivity. }
  destruct Hauth as (err & s' & tr & Hauth & Hstate & Htrace).
  assert (Hr : r = (Raise err, s', tr) ∨
               ∃ msg, r = (Return tt, s',
                           tr ++ [EvSendLogError id msg; EvDisconnect id])).
  { assert (Hr : r = _cl_handler reg id hs script s) by done. clearbody r.
    unfold _cl_handler in Hr. unfold bind at 1, try_except in Hr.
    erewrite bind_Raise in Hr by exact Hauth.
    unfold auth_except in Hr. clear Hauth.
    destruct (exn_type err); simpl in Hr; run; rewrite ?app_nil_r in Hr;
      first [left; exact Hr | right; eexists; exact Hr]. }
  destruct Hr as [-> | [msg ->]]; unfold run_outcome, run_state, run_trace; simpl.
  - split; [done|]. split; [done|]. intros who.
    destruct Htrace as [-> | ->]; [apply not_elem_of_nil|].
    intros Hin. apply elem_of_cons in Hin as [Hin|Hin]; [discriminate|].
    by apply elem_of_nil in Hin.
  - split; [done|]. split; [done|]. intros who Hin.
    destruct Htrace as [-> | ->]; simpl in Hin;
      repeat (apply elem_of_cons in Hin as [Hin|Hin]; [discriminate|]);
      by apply elem_of_nil in Hin.
Qed.

(** ** ResponseCode: members, values and bands *)

Lemma members_complete (c : ResponseCode.t) : In c ResponseCode.members.
Proof. destruct c; simpl; tauto. Qed.

Lemma int_value_inj (c1 c2 : ResponseCode.t) :
  ResponseCode.int_value c1 = ResponseCode.int_value c2 → c1 = c2.
Proof. by destruct c1, c2. Qed.

Lemma eq_int_functional (v : value) (n m : Z) :
  eq_int v n = true → eq_int v m = true → n = m.
Proof.
  unfold eq_int. destruct (as_int v); [|done].
  intros ?%Z.eqb_eq ?%Z.eqb_eq. congruence.
Qed.

Lemma call_iff (v : value) (c : ResponseCode.t) :
  ResponseCode.call v = inr c ↔ eq_int v (ResponseCode.int_value c) = true.
Proof.
  unfold ResponseCode.call.
  destruct (List.find _ _) as [c'|] eqn:Hfind.
  - apply find_some in Hfind as [_ Hc']. split.
    + by intros [= <-].
    + intros Hc. f_equal. apply int_value_inj. by apply (eq_int_functional v).
  - split; [done|]. intros Hc.
    pose proof (find_none _ _ Hfind c (members_complete c)) as Hnone.
    simpl in Hnone. congruence.
Qed.

Lemma call_error (v : value) (err : exn) :
  ResponseCode.call v = inl err →
  err = Exn ValueError (TxtNotValidCode v) ∧
  ∀ c, eq_int v (ResponseCode.int_value c) = false.
Proof.
  unfold ResponseCode.call.
  destruct (List.find _ _) as [c'|] eqn:Hfind; [done|].
  intros [= <-]. split; [done|].
  intros c. apply (find_none _ _ Hfind c (members_complete c)).
Qed.

(** X1: [ResponseCode(v)] is the member whose integer [v] equals, and it is
    the only one; every member is got back from its own value; and when no
    member equals [v] the call is a ValueError. *)
Theorem response_code_call_spec (v : value) (c : ResponseCode.t) :
  (ResponseCode.call v = inr c ↔ eq_int v (ResponseCode.int_value c) = true) ∧
  ResponseCode.call (ResponseCode.to_value c) = inr c ∧
  (∀ err, ResponseCode.call v = inl err →
          err = Exn ValueError (TxtNotValidCode v) ∧
          ∀ c', eq_int v (ResponseCode.int_value c') = false).
Proof.
  split; [apply call_iff|]. split.
  - apply call_iff. by destruct c.
  - apply call_error.
Qed.

(** 11.  The string "11" is no code. *)
Lemma response_code_call_spec_witness :
  ResponseCode.call (VInt 11) = inr ResponseCode.AUTH_ANS_LOGIN ∧
  ∀ c, eq_int (VStr "11") (ResponseCode.int_value c) = false.
Proof.
  split.
  - apply (proj1 (response_code_call_spec (VInt 11) ResponseCode.AUTH_ANS_LOGIN)).
    reflexivity.
  - apply (proj2 (proj2 (response_code_call_spec (VStr "11") ResponseCode.AUTH_REQ))
             (Exn ValueError (TxtNotValidCode (VStr "11")))).
    reflexivity.
Defined.

Lemma bands_holding_member (v : value) (c : ResponseCode.t) :
  eq_int v (ResponseCode.int_value c) = true → bands_holding v = 1%nat.
Proof.
  intros Hc. unfold bands_holding, ResponseCode.is_auth, ResponseCode.is_net,
    ResponseCode.is_file, ResponseCode.is_log, ResponseCode.in_set.
  assert (Hhash : ∃ k, hash_key v = Some k).
  { unfold eq_int in Hc. destruct v; simpl in Hc; try done; by eexists. }
  destruct Hhash as [k ->].
  unfold eq_int in *. destruct (as_int v) as [n|]; [|done].
  apply Z.eqb_eq in Hc. subst n. by destruct c.
Qed.

Lemma bands_holding_no_member (v : value) :
  (∀ c, eq_int v (ResponseCode.int_value c) = false) → bands_holding v = 0%nat.
Proof.
  intros Hno. unfold bands_holding, ResponseCode.is_auth, ResponseCode.is_net,
    ResponseCode.is_file, ResponseCode.is_log, ResponseCode.in_set.
  unfold eq_int in *.
  destruct (as_int v) as [n|]; [|by destruct (hash_key v)].
  pose proof (Hno ResponseCode.AUTH_REQ) as H10.
  pose proof (Hno ResponseCode.AUTH_ANS_LOGIN) as H11.
  pose proof (Hno ResponseCode.AUTH_ANS_REGIS) as H12.
  pose proof (Hno ResponseCode.AUTH_ANS_SERVE) as H19.
  pose proof (Hno ResponseCode.NET_REQ) as H20.
  pose proof (Hno ResponseCode.FIL_REQ) as H30.
  pose proof (Hno ResponseCode.FIL_END) as H31.
  pose proof (Hno ResponseCode.LOG_DEB) as H41.
  pose proof (Hno ResponseCode.LOG_INF) as H42.
  pose proof (Hno ResponseCode.LOG_WAR) as H43.
  pose proof (Hno ResponseCode.LOG_ERR) as H44.
  clear Hno. simpl in *.
  destruct (hash_key v); simpl;
    by rewrite ?H10, ?H11, ?H12, ?H19, ?H20, ?H30, ?H31, ?H41, ?H42, ?H43, ?H44.
Qed.

(** X2: the four band predicates partition the codes.  On a member exactly
    one of [is_auth], [is_net], [is_file], [is_log] answers True; on any
    object at most one does; and one does exactly when the object is a valid
    code, one [ResponseCode(v)] accepts. *)
Theorem bands_partition (v : value) (c : ResponseCode.t) :
  bands_holding (ResponseCode.to_value c) = 1%nat ∧
  (bands_holding v ≤ 1)%nat ∧
  (bands_holding v = 1%nat ↔ ∃ c', ResponseCode.call v = inr c').
Proof.
  assert (Hcases : (∃ c', eq_int v (ResponseCode.int_value c') = true) ∨
                   (∀ c', eq_int v (ResponseCode.int_value c') = false)).
  { destruct (ResponseCode.call v) as [err|c'] eqn:Hcall.
    - right. by destruct (call_error v err Hcall).
    - left. exists c'. by apply call_iff. }
  split; [|split].
  - apply (bands_holding_member _ c). by destruct c.
  - destruct Hcases as [[c' Hc']|Hno].
    + by rewrite (bands_holding_member v c').
    + rewrite bands_holding_no_member by done. lia.
  - destruct Hcases as [[c' Hc']|Hno].
    + rewrite (bands_holding_member v c') by done. split; [|done].
      intros _. exists c'. by apply call_iff.
    + rewrite bands_holding_no_member by done. split; [done|].
      intros [c' Hcall]. apply call_iff in Hcall.
      by rewrite Hno in Hcall.
Qed.

(** The code of a login answer, and the bool True, which equals 1. *)
Lemma bands_partition_witness :
  bands_holding (VInt 11) = 1%nat ∧ (bands_holding (VBool true) ≤ 1)%nat ∧
  ∃ c, ResponseCode.call (VInt 11) = inr c.
Proof.
  destruct (bands_partition (VInt 11) ResponseCode.AUTH_ANS_LOGIN) as (Hone & _ & Hiff).
  destruct (bands_partition (VBool true) ResponseCode.AUTH_ANS_LOGIN) as (_ & Hle & _).
  split; [exact Hone|]. split; [exact Hle|]. apply Hiff. exact Hone.
Defined.

(** ** register_methods_from_class *)

Lemma substring_all (s : string) : String.substring 0 (String.length s) s = s.
Proof. induction s as [|a s IH]; simpl; [done|]. by rewrite IH. Qed.

Lemma slice_from_net (rest : string) : slice_from 4 ("net_" +:+ rest) = rest.
Proof. unfold slice_from. simpl. rewrite Nat.sub_0_r. apply substring_all. Qed.

Lemma startswith_net (name : string) :
  startswith "net_" name = true ↔ ∃ rest, name = "net_" +:+ rest.
Proof.
  unfold startswith. split.
  - intros H. apply String.prefix_correct in H. simpl in H.
    destruct name as [|a [|b [|c [|d rest]]]]; simpl in H; try discriminate.
    exists rest. injection H as -> -> -> ->. done.
  - intros [rest ->]. apply String.prefix_correct. simpl. by destruct rest.
Qed.

Lemma register_step_lookup (class_name : string)
    (st : gmap string NetFunc * list registered) (name : string) (func : NetFunc)
    (m : string) :
  (register_step class_name st (name, func)).1 !! m
  = if decide (name = "net_" +:+ m) then Some func else st.1 !! m.
Proof.
  unfold register_step. destruct (startswith "net_" name) eqn:Hpre.
  - apply startswith_net in Hpre as [rest ->]. rewrite slice_from_net. simpl.
    destruct (decide (rest = m)) as [->|Hne].
    + rewrite lookup_insert_eq. by rewrite decide_True.
    + rewrite lookup_insert_ne by done. rewrite decide_False; [done|].
      intros Heq. simpl in Heq. by injection Heq.
  - rewrite decide_False; [done|]. intros ->.
    assert (startswith "net_" ("net_" +:+ m) = true) by (apply startswith_net; eauto).
    congruence.
Qed.

Lemma register_fold_absent (class_name : string) (members : list (string * NetFunc))
    (st : gmap string NetFunc * list registered) (m : string) :
  "net_" +:+ m ∉ members.*1 →
  (foldl (register_step class_name) st members).1 !! m = st.1 !! m.
Proof.
  revert st. induction members as [|[name func] members IH]; intros st Habsent; [done|].
  simpl in Habsent. apply not_elem_of_cons in Habsent as [Hne Habsent].
  cbn [foldl]. rewrite IH by done. rewrite register_step_lookup.
  by rewrite decide_False.
Qed.

Lemma register_fold_last (class_name : string) (before after : list (string * NetFunc))
    (st : gmap string NetFunc * list registered) (m : string) (func : NetFunc) :
  "net_" +:+ m ∉ after.*1 →
  (foldl (register_step class_name) st (before ++ ("net_" +:+ m, func) :: after)).1 !! m
  = Some func.
Proof.
  intros Habsent. rewrite foldl_app. cbn [foldl].
  rewrite register_fold_absent by done. rewrite register_step_lookup.
  by rewrite decide_True.
Qed.

(** The last member of a given name, if there is one. *)
Lemma last_named (members : list (string * NetFunc)) (name : string) :
  name ∉ members.*1 ∨
  ∃ before func after, members = before ++ (name, func) :: after ∧ name ∉ after.*1.
Proof.
  induction members as [|[name' func'] members IH].
  - left. apply not_elem_of_nil.
  - destruct IH as [Habsent|(before & func & after & -> & Hafter)].
    + destruct (decide (name' = name)) as [->|Hne].
      * right. by exists [], func', members.
      * left. simpl. apply not_elem_of_cons. split; [done|]. exact Habsent.
    + right. by exists ((name', func') :: before), func, after.
Qed.

(** X3: the registry after [register_methods_from_class].  Under a name [m]
    it holds the last member called net_[m], whatever was registered under
    [m] before; and when the class has no member of that name, what it held
    before. *)
Theorem register_lookup (class_name : string) (members : list (string * NetFunc))
    (funcs : gmap string NetFunc) (m : string) :
  let funcs' := (register_methods_from_class class_name members funcs).1 in
  ("net_" +:+ m ∉ members.*1 → funcs' !! m = funcs !! m) ∧
  (∀ before func after,
     members = before ++ ("net_" +:+ m, func) :: after →
     "net_" +:+ m ∉ after.*1 →
     funcs' !! m = Some func).
Proof.
  unfold register_methods_from_class. split.
  - intros Habsent. by rewrite register_fold_absent.
  - intros before func after -> Habsent. by apply register_fold_last.
Qed.

(** A class with [helper], [net_] and [net_say]: "say" and the empty name are
    registered, "helper" is not, and "ping" stays. *)
Lemma register_lookup_witness :
  let members := [("helper", Scenario.net_say); ("net_", Scenario.net_ping);
                  ("net_say", Scenario.net_say)] in
  let funcs' := (register_methods_from_class "Game" members
                   {[ "ping" := Scenario.net_ping ]}).1 in
  funcs' !! "ping" = Some Scenario.net_ping ∧
  funcs' !! "helper" = None ∧
  funcs' !! "say" = Some Scenario.net_say ∧
  funcs' !! "" = Some Scenario.net_ping.
Proof.
  intros members funcs'.
  pose proof (register_lookup "Game" members {[ "ping" := Scenario.net_ping ]}) as H.
  split; [|split; [|split]].
  - etrans; [apply (proj1 (H "ping")); compute_done|reflexivity].
  - etrans; [apply (proj1 (H "helper")); compute_done|reflexivity].
  - apply (proj2 (H "say") [("helper", Scenario.net_say); ("net_", Scenario.net_ping)]
             Scenario.net_say [] eq_refl).
    compute_done.
  - apply (proj2 (H "") [("helper", Scenario.net_say)] Scenario.net_ping
             [("net_say", Scenario.net_say)] eq_refl).
    compute_done.
Defined.

(** X4: which names the registry holds afterwards: those it held before, and
    for every member called net_[m] the name [m]; a member without the
    prefix adds nothing, and nothing is ever removed. *)
Theorem register_names (class_name : string) (members : list (string * NetFunc))
    (funcs : gmap string NetFunc) (m : string) :
  let funcs' := (register_methods_from_class class_name members funcs).1 in
  is_Some (funcs' !! m) ↔ is_Some (funcs !! m) ∨ "net_" +:+ m ∈ members.*1.
Proof.
  unfold register_methods_from_class. simpl.
  destruct (last_named members ("net_" +:+ m))
    as [Habsent|(before & func & after & -> & Hafter)].
  - rewrite register_fold_absent by done. simpl. tauto.
  - rewrite register_fold_last by done. split; [|by eauto].
    intros _. right. rewrite fmap_app, fmap_cons. simpl.
    apply elem_of_app. right. by apply elem_of_cons; left.
Qed.

(** A class with [net_say] and [helper], on a registry that holds "ping". *)
Lemma register_names_witness :
  let funcs' := (register_methods_from_class "Game"
                   [("helper", Scenario.net_ping); ("net_say", Scenario.net_say)]
                   {[ "ping" := Scenario.net_ping ]}).1 in
  is_Some (funcs' !! "say") ∧ is_Some (funcs' !! "ping").
Proof.
  intros funcs'. split.
  - apply (register_names "Game"
             [("helper", Scenario.net_ping); ("net_say", Scenario.net_say)]
             {[ "ping" := Scenario.net_ping ]} "say").
    right. compute_done.
  - apply (register_names "Game"
             [("helper", Scenario.net_ping); ("net_say", Scenario.net_say)]
             {[ "ping" := Scenario.net_ping ]} "ping").
    left. by eexists.
Defined.

(** X5: registering the same class a second time leaves the registry as the
    first registration made it. *)
Theorem register_idempotent (class_name : string) (members : list (string * NetFunc))
    (funcs : gmap string NetFunc) :
  let funcs' := (register_methods_from_class class_name members funcs).1 in
  (register_methods_from_class class_name members funcs').1 = funcs'.
Proof.
  unfold register_methods_from_class. simpl. apply map_eq. intros m.
  destruct (last_named members ("net_" +:+ m))
    as [Habsent|(before & func & after & -> & Hafter)].
  - by rewrite (register_fold_absent _ _ (_, [])) by done.
  - by rewrite !register_fold_last by done.
Qed.

Lemma call_func_lookup_ext (reg reg' : gmap string NetFunc) (name : string)
    (kw : kwargs) (s : ServerState) :
  reg !! name = reg' !! name →
  _call_func reg (VStr name) kw s = _call_func reg' (VStr name) kw s.
Proof. intros H. unfold _call_func, network_funcs_get. simpl. by rewrite H. Qed.

(** X6: registration and dispatch together.  A function the class defines as
    net_[m] is the one [_call_func] dispatches the name [m] to; under its
    full name net_[m] it is not found, unless something else was registered
    there. *)
Theorem registered_is_dispatched (class_name : string)
    (before after : list (string * NetFunc)) (func : NetFunc)
    (funcs : gmap string NetFunc) (m : string) (kw : kwargs) (s : ServerState) :
  let members := before ++ ("net_" +:+ m, func) :: after in
  let funcs' := (register_methods_from_class class_name members funcs).1 in
  "net_" +:+ m ∉ after.*1 →
  _call_func funcs' (VStr m) kw s = _call_func {[ m := func ]} (VStr m) kw s ∧
  ("net_net_" +:+ m ∉ members.*1 → funcs !! ("net_" +:+ m) = None →
   _call_func funcs' (VStr ("net_" +:+ m)) kw s
   = (Return tt, s, [EvLog (LogFuncNotFound (VStr ("net_" +:+ m)))])).
Proof.
  intros members funcs' Hafter. split.
  - apply call_func_lookup_ext. unfold funcs', register_methods_from_class, members.
    rewrite register_fold_last by done. by rewrite lookup_singleton_eq.
  - intros Habsent Hfree.
    assert (Hnone : funcs' !! ("net_" +:+ m) = None).
    { unfold funcs', register_methods_from_class.
      rewrite register_fold_absent by exact Habsent. exact Hfree. }
    unfold _call_func, network_funcs_get. simpl hash_key. cbv iota beta.
    rewrite Hnone. by run.
Qed.

(** The class of the scenario defines [net_say]: "say" is dispatched, with
    its undeclared field dropped, and "net_say" is not found. *)
Lemma registered_is_dispatched_witness :
  let funcs' := (register_methods_from_class "Game"
                   [("helper", Scenario.net_ping); ("net_say", Scenario.net_say)] ∅).1 in
  let s := Scenario.server ∅ true (-1) in
  let kw := [("cl_unit", VClUnit 2); ("text", VStr "hi"); ("colour", VInt 3)] in
  _call_func funcs' (VStr "say") kw s
  = (Return tt, s, [EvCall "say" false [("cl_unit", VClUnit 2); ("text", VStr "hi")]]) ∧
  _call_func funcs' (VStr "net_say") kw s
  = (Return tt, s, [EvLog (LogFuncNotFound (VStr "net_say"))]).
Proof.
  intros funcs' s kw.
  assert (Hafter : "net_" +:+ "say" ∉ ([] : list (string * NetFunc)).*1)
    by compute_done.
  destruct (registered_is_dispatched "Game" [("helper", Scenario.net_ping)] []
              Scenario.net_say ∅ "say" kw s Hafter) as [Hsay Hfull].
  split.
  - etrans; [exact Hsay|]. reflexivity.
  - apply Hfull; [compute_done|reflexivity].
Defined.

(** ** Dispatch: the type check and the call *)

Lemma check_types_pass hints (items : kwargs) (s : ServerState) :
  (∀ kv, kv ∈ items → well_typed hints kv = true) →
  check_types hints items s = (Return true, s, []).
Proof.
  induction items as [|[k v] items IH]; intros Hall; [done|].
  assert (Hkv : well_typed hints (k, v) = true) by (apply Hall; by left).
  unfold well_typed in Hkv. simpl in Hkv. simpl check_types.
  destruct (dict_get k hints) as [[|c|]|]; try done. simpl.
  rewrite bind_ret_l, Hkv. simpl. apply IH. intros kv Hin. apply Hall. by right.
Qed.



(** [_call_func] on a registered function whose annotations resolve. *)
Lemma call_func_registered (reg : gmap string NetFunc) (name : string)
    (func : NetFunc) hints (kw : kwargs) (s : ServerState) :
  reg !! name = Some func →
  type_hints func = inr hints →
  _call_func reg (VStr name) kw s
  = (ok <- check_types hints (valid_kwargs_of func kw);;
     if ok then try_except (invoke name func (valid_kwargs_of func kw))
                           (call_except (VStr name))
     else ret tt) s.
Proof.
  intros Hreg Hhints. unfold _call_func, network_funcs_get. simpl.
  rewrite Hreg. simpl. rewrite bind_ret_l. rewrite Hhints. simpl lift.
  by rewrite bind_ret_l.
Qed.





(** X9: an exception of the called function.  An [Exception] is caught and
    logged, and [_call_func] returns; any other BaseException, a
    cancellation say, goes on to the caller.  Either way the effects of the
    function up to there stand. *)
Theorem call_func_body_raises (reg : gmap string NetFunc) (name : string)
    (func : NetFunc) hints (kw : kwargs) (err : exn) (s s' : ServerState) tr :
  reg !! name = Some func →
  type_hints func = inr hints →
  (∀ kv, kv ∈ valid_kwargs_of func kw → well_typed hints kv = true) →
  call func (valid_kwargs_of func kw) s = (Raise err, s', tr) →
  let called := EvCall name (is_coroutine func) (valid_kwargs_of func kw) in
  _call_func reg (VStr name) kw s
  = if is_Exception (exn_type err)
    then (Return tt, s', called :: tr ++ [EvLog (LogCallError (VStr name) err)])
    else (Raise err, s', called :: tr).
Proof.
  intros Hreg Hhints Htyped Hcall called.
  rewrite (call_func_registered reg name func hints) by done.
  rewrite (bind_silent _ _ _ _ _ (check_types_pass hints _ s Htyped)).
  unfold try_except, invoke, call_except.
  unfold bind at 1. unfold emit at 1. rewrite Hcall.
  destruct (is_Exception (exn_type err)); by run.
Qed.

(** "say" with a body that fails. *)
Lemma call_func_body_raises_witness :
  let kw := [("cl_unit", VClUnit 2); ("text", VStr "hi")] in
  _call_func {[ "say" := Cases.say_raising Cases.key_error ]} (VStr "say") kw
    Cases.online
  = (Return tt, Cases.online,
     [EvCall "say" false kw; EvLog (LogCallError (VStr "say") Cases.key_error)]).
Proof.
  intros kw.
  apply (call_func_body_raises {[ "say" := Cases.say_raising Cases.key_error ]} "say"
           (Cases.say_raising Cases.key_error) Cases.say_hints kw Cases.key_error
           Cases.online Cases.online []).
  - reflexivity.
  - reflexivity.
  - intros kv Hin. vm_compute in Hin.
    apply elem_of_cons in Hin as [->|Hin]; [reflexivity|].
    apply elem_of_cons in Hin as [->|Hin]; [reflexivity|].
    by apply elem_of_nil in Hin.
  - reflexivity.
Defined.

(** X10: a [func_name] that is no string.  A hashable one, the None of a
    request without "net_func_name" first of all, is looked up and not found:
    logged, and the loop goes on.  A list or a dict cannot be looked up:
    [_call_func] raises TypeError. *)
Theorem call_func_name_not_str (reg : gmap string NetFunc) (func_name : value)
    (kw : kwargs) (cl_unit : ClUnit) (d : kwargs) (code : value) (s : ServerState) :
  (∀ name, func_name ≠ VStr name) →
  _call_func reg func_name kw s
  = match hash_key func_name with
    | Some _ => (Return tt, s, [EvLog (LogFuncNotFound func_name)])
    | None => (Raise (Exn TypeError (TxtUnhashable (type_of func_name))), s, [])
    end ∧
  (dict_get "code" d = Some code → eq_int code 20 = true →
   dict_get "net_func_name" d = None →
   dict_has "cl_unit" d = false → dict_has "cls" d = false →
   dict_has "func_name" d = false →
   loop_body reg cl_unit (VDict d) s
   = (Return tt, s, [EvLog (LogFuncNotFound VNone)])).
Proof.
  intros Hname.
  assert (Hcall : ∀ v kw', (∀ name, v ≠ VStr name) →
            _call_func reg v kw' s
            = match hash_key v with
              | Some _ => (Return tt, s, [EvLog (LogFuncNotFound v)])
              | None => (Raise (Exn TypeError (TxtUnhashable (type_of v))), s, [])
              end).
  { intros v kw' Hv. unfold _call_func, network_funcs_get.
    destruct v; simpl; try by run. by destruct (Hv s0). }
  split; [by apply Hcall|].
  intros Hcode Heq Hmissing H1 H2 H3.
  rewrite (loop_body_net reg cl_unit d code) by done.
  rewrite Hmissing. simpl. by rewrite Hcall.
Qed.

(** A request that names no function, and one that names a list. *)
Lemma call_func_name_not_str_witness :
  loop_body Scenario.registry Scenario.bob (VDict [("code", VInt 20)]) Cases.online
  = (Return tt, Cases.online, [EvLog (LogFuncNotFound VNone)]) ∧
  _call_func Scenario.registry (VList [VStr "ping"]) [("cl_unit", VClUnit 2)]
    Cases.online
  = (Raise (Exn TypeError (TxtUnhashable C_list)), Cases.online, []).
Proof.
  split.
  - assert (Hname : ∀ name, VNone ≠ VStr name) by done.
    apply (proj2 (call_func_name_not_str Scenario.registry VNone [] Scenario.bob
                    [("code", VInt 20)] (VInt 20) Cases.online Hname));
      reflexivity.
  - assert (Hname : ∀ name, VList [VStr "ping"] ≠ VStr name) by done.
    apply (proj1 (call_func_name_not_str Scenario.registry (VList [VStr "ping"])
                    [("cl_unit", VClUnit 2)] Scenario.bob [] VNone Cases.online Hname)).
Defined.

(** ** The message loop: replies, exceptions, going offline *)

(** X12: a package that is no remote-procedure-call request gets one
    error-log reply and nothing else happens: the loop body returns, the
    class-level state untouched.  The reply is "Receive data type expected
    dict." for anything but a dict and "Unknown 'code' for net type." for a
    dict whose code is truthy but not equal to 20. *)
Theorem loop_body_rejects (reg : gmap string NetFunc) (cl_unit : ClUnit)
    (package : value) (s : ServerState) :
  ((∀ d, package ≠ VDict d) →
   loop_body reg cl_unit package s
   = (Return tt, s,
      [EvSendLogError (cl_id cl_unit) (Txt "Receive data type expected dict.")])) ∧
  (∀ d code, package = VDict d → dict_get "code" d = Some code →
             truthy code = true → eq_int code 20 = false →
   loop_body reg cl_unit package s
   = (Return tt, s,
      [EvSendLogError (cl_id cl_unit) (Txt "Unknown 'code' for net type.")])).
Proof.
  split.
  - intros Hnot. destruct package; try reflexivity. by destruct (Hnot d).
  - intros d code -> Hcode Htruthy Hne. unfold loop_body, dict_pop.
    rewrite Hcode. simpl. rewrite Htruthy. simpl.
    rewrite bind_ret_l. unfold ResponseCode.is_net. simpl ResponseCode.int_value.
    rewrite Hne. simpl lift. by rewrite bind_ret_l.
Qed.

(** A list, and a login answer sent after the handshake. *)
Lemma loop_body_rejects_witness :
  loop_body Scenario.registry Scenario.bob (VList [VInt 20]) Cases.online
  = (Return tt, Cases.online,
     [EvSendLogError 2 (Txt "Receive data type expected dict.")]) ∧
  loop_body Scenario.registry Scenario.bob
    (VDict [("code", VInt 11); ("login", VStr "bob")]) Cases.online
  = (Return tt, Cases.online, [EvSendLogError 2 (Txt "Unknown 'code' for net type.")]).
Proof.
  split.
  - apply (proj1 (loop_body_rejects Scenario.registry Scenario.bob (VList [VInt 20])
                    Cases.online)). done.
  - apply (proj2 (loop_body_rejects Scenario.registry Scenario.bob
                    (VDict [("code", VInt 11); ("login", VStr "bob")]) Cases.online)
             [("code", VInt 11); ("login", VStr "bob")] (VInt 11));
      reflexivity.
Defined.

Lemma find_reserved_Some (d : kwargs) :
  dict_has "cls" d = true ∨ dict_has "func_name" d = true →
  ∃ k v, List.find (λ kv, String.eqb kv.1 "cls" || String.eqb kv.1 "func_name") d
         = Some (k, v) ∧ (k = "cls" ∨ k = "func_name").
Proof.
  unfold dict_has. induction d as [|[k v] d IH]; [by intros [|]|].
  cbn [dict_get List.find fst].
  rewrite (String.eqb_sym k "cls"), (String.eqb_sym k "func_name").
  destruct (String.eqb "cls" k) eqn:E1.
  - intros _. apply String.eqb_eq in E1 as <-. exists "cls", v. auto.
  - destruct (String.eqb "func_name" k) eqn:E2.
    + intros _. apply String.eqb_eq in E2 as <-. exists "func_name", v. auto.
    + cbn [orb]. apply IH.
Qed.

(** X13: a request with a field called "cl_unit", "cls" or "func_name" never
    reaches [_call_func]: these collide with the arguments of the call
    itself, which is a TypeError raised in the loop body, before any lookup,
    log or call. *)
Theorem loop_reserved_field_raises (reg : gmap string NetFunc) (cl_unit : ClUnit)
    (d : kwargs) (code : value) (s : ServerState) :
  dict_get "code" d = Some code →
  eq_int code 20 = true →
  dict_has "cl_unit" d = true ∨ dict_has "cls" d = true ∨ dict_has "func_name" d = true →
  ∃ arg, (arg = "cl_unit" ∨ arg = "cls" ∨ arg = "func_name") ∧
         loop_body reg cl_unit (VDict d) s
         = (Raise (Exn TypeError (TxtMultipleValues "_call_func" arg)), s, []).
Proof.
  intros Hcode Heq Hreserved.
  set (d' := dict_remove "net_func_name" (dict_remove "code" d)).
  assert (Hkw : ∃ arg, (arg = "cl_unit" ∨ arg = "cls" ∨ arg = "func_name") ∧
                       call_kwargs cl_unit d'
                       = inl (Exn TypeError (TxtMultipleValues "_call_func" arg))).
  { unfold call_kwargs. destruct (dict_has "cl_unit" d') eqn:Hcl.
    - exists "cl_unit". auto.
    - assert (Hother : dict_has "cls" d' = true ∨ dict_has "func_name" d' = true).
      { unfold d' in *. rewrite !dict_has_remove_ne in * by done.
        destruct Hreserved as [H|[H|H]]; [congruence|auto|auto]. }
      destruct (find_reserved_Some d' Hother) as (k & v & -> & Hk).
      exists k. split; [tauto|done]. }
  destruct Hkw as (arg & Harg & Hkw). exists arg. split; [done|].
  unfold loop_body, dict_pop. rewrite Hcode. simpl.
  rewrite (eq_int_truthy code 20) by done. simpl.
  rewrite bind_ret_l. unfold ResponseCode.is_net. simpl ResponseCode.int_value.
  rewrite Heq. simpl lift. rewrite bind_ret_l. fold d'. rewrite Hkw. by run.
Qed.

(** A request for "say" that carries its own "cl_unit". *)
Lemma loop_reserved_field_raises_witness :
  ∃ arg, (arg = "cl_unit" ∨ arg = "cls" ∨ arg = "func_name") ∧
         loop_body Scenario.registry Scenario.bob
           (VDict [("code", VInt 20); ("net_func_name", VStr "say");
                   ("text", VStr "hi"); ("cl_unit", VInt 1)]) Cases.online
         = (Raise (Exn TypeError (TxtMultipleValues "_call_func" arg)), Cases.online, []).
Proof.
  apply (loop_reserved_field_raises Scenario.registry Scenario.bob
           [("code", VInt 20); ("net_func_name", VStr "say");
            ("text", VStr "hi"); ("cl_unit", VInt 1)] (VInt 20) Cases.online).
  - reflexivity.
  - reflexivity.
  - left. reflexivity.
Defined.

Lemma message_loop_package (reg : gmap string NetFunc) (cl_unit : ClUnit)
    env (package : value) (script : list tick) (s : ServerState) :
  _is_online s = true →
  message_loop reg cl_unit ({| tick_env := env; tick_recv := Got package |} :: script) s
  = (loop_body reg cl_unit package;; message_loop reg cl_unit script) (env s).
Proof.
  intros Honline. rewrite message_loop_step by done.
  unfold await_receive, receive_package. simpl.
  unfold bind at 1. unfold bind at 1. unfold modify at 1. unfold ret at 1. simpl.
  by destruct (bind _ _ (env s)) as [[o s2] t2].
Qed.

(** X11: an exception that leaves the loop body on a package ends the
    session there; the rest of the script is never read.  The peer is sent
    "An unexpected error occurred: ..." for an [Exception] that is not of a
    disconnect class; the handler returns, or lets a BaseException it does
    not catch go on; and in every case the cleanup has run on the state the
    loop body left. *)
Theorem session_package_raises (reg : gmap string NetFunc) (cl_unit : ClUnit) (k : key)
    env (package : value) (rest : list tick) (s s1 : ServerState) (err : exn) tr :
  hash_key (login cl_unit) = Some k →
  _is_online s = true →
  loop_body reg cl_unit package (env (set_cl_units (insert k cl_unit) s))
  = (Raise err, s1, tr) →
  session reg cl_unit ({| tick_env := env; tick_recv := Got package |} :: rest) s
  = (outcome_after cl_unit err, set_cl_units (delete k) s1,
     EvLog (LogConnected (login cl_unit))
       :: tr ++ except_events cl_unit err ++ cleanup_events cl_unit).
Proof.
  intros Hk Honline Hbody. rewrite (session_run reg cl_unit k) by done.
  unfold try_finally, try_except.
  rewrite message_loop_package by done.
  erewrite bind_Raise by exact Hbody.
  unfold outcome_after, except_events, loop_except.
  destruct (exn_type err); simpl;
    rewrite ?(cleanup_run cl_unit k) by done;
    unfold run_outcome, run_state, run_trace; run;
    by rewrite <- ?app_assoc.
Qed.

(** bob asks for "ping", whose [cl_unit] parameter has no annotation. *)
Lemma session_package_raises_witness :
  session Scenario.registry Scenario.bob
    [Scenario.quiet (Got (VDict [("code", VInt 20); ("net_func_name", VStr "ping")]));
     Scenario.quiet (Got (VDict [("code", VInt 20); ("net_func_name", VStr "say")]))]
    Cases.online
  = (Return tt, Cases.online,
     [EvLog (LogConnected (VStr "bob"));
      EvSendLogError 2 (TxtUnexpected (TxtIsinstance HAny));
      EvDisconnect 2; EvLog (LogDisconnected (VStr "bob"))]).
Proof.
  etrans.
  - apply (session_package_raises Scenario.registry Scenario.bob (KStr "bob") (λ s, s)
             (VDict [("code", VInt 20); ("net_func_name", VStr "ping")])
             [Scenario.quiet (Got (VDict [("code", VInt 20);
                                          ("net_func_name", VStr "say")]))]
             Cases.online
             (set_cl_units (insert (KStr "bob") Scenario.bob) Cases.online)
             (Exn TypeError (TxtIsinstance HAny)) []);
      reflexivity.
  - vm_compute. reflexivity.
Defined.

(** X14: the online flag is read at the head of the loop only.  Offline
    there, nothing more is awaited; but a package whose receive was pending
    when the server went offline is still handled, and only then does the
    loop end, the rest of the script unread. *)
Theorem package_after_offline (reg : gmap string NetFunc) (cl_unit : ClUnit)
    env (package : value) (rest : list tick) (s : ServerState) :
  (_is_online s = false →
   message_loop reg cl_unit ({| tick_env := env; tick_recv := Got package |} :: rest) s
   = (Return tt, s, [])) ∧
  (_is_online s = true →
   let handled := loop_body reg cl_unit package (env s) in
   run_outcome handled = Return tt →
   _is_online (run_state handled) = false →
   message_loop reg cl_unit ({| tick_env := env; tick_recv := Got package |} :: rest) s
   = (Return tt, run_state handled, run_trace handled)).
Proof.
  split.
  - apply message_loop_offline.
  - intros Honline handled Hret Hoff. rewrite message_loop_package by done.
    fold handled in Hret, Hoff |- *. unfold bind.
    destruct (loop_body reg cl_unit package (env s)) as [[o s1] t1] eqn:Hbody.
    unfold handled, run_outcome, run_state, run_trace in *. simpl in *. subst o.
    rewrite message_loop_offline by done. by rewrite app_nil_r.
Qed.

(** The server is stopped while bob's request for "say" is on its way: "say"
    is still called. *)
Lemma package_after_offline_witness :
  message_loop Scenario.registry Scenario.bob
    [Scenario.stopping (Got (VDict [("code", VInt 20); ("net_func_name", VStr "say");
                                    ("text", VStr "hi")]));
     Scenario.quiet (Got (VDict []))]
    (Scenario.server {[ KStr "bob" := Scenario.bob ]} true (-1))
  = (Return tt, Scenario.server ∅ false (-1),
     [EvCall "say" false [("cl_unit", VClUnit 2); ("text", VStr "hi")]]).
Proof.
  etrans.
  - apply (proj2 (package_after_offline Scenario.registry Scenario.bob
                    (tick_env (Scenario.stopping (Got VNone)))
                    (VDict [("code", VInt 20); ("net_func_name", VStr "say");
                            ("text", VStr "hi")])
                    [Scenario.quiet (Got (VDict []))]
                    (Scenario.server {[ KStr "bob" := Scenario.bob ]} true (-1))));
      reflexivity.
  - vm_compute. reflexivity.
Defined.

(** ** stop, again *)

Lemma stop_online (s : ServerState) :
  _is_online s = true →
  ∃ tail, stop s = (Return tt, set_cl_units (λ _, ∅) (set_is_online false s),
                    EvOnline false :: EvGatherDisconnect (live_ids s) :: tail).
Proof.
  intros Honline. unfold stop, assign_is_online, live_ids. run. rewrite Honline. simpl.
  destruct (_server s); simpl; by eexists.
Qed.

Lemma stop_offline (s : ServerState) :
  _is_online s = false → stop s = (Raise not_working_error, s, []).
Proof. intros Hoff. unfold stop. run. by rewrite Hoff. Qed.

(** X15: [stop] is not idempotent.  A second [stop] after a first one raises
    "Server is not working." and does nothing: the state and the effects are
    those of the first. *)
Theorem stop_twice (s : ServerState) :
  _is_online s = true →
  (stop;; stop) s = (Raise not_working_error, run_state (stop s), run_trace (stop s)).
Proof.
  intros Honline. destruct (stop_online s Honline) as [tail Hstop].
  erewrite bind_Return by exact Hstop.
  rewrite stop_offline by done. rewrite Hstop.
  unfold run_outcome, run_state, run_trace. simpl. by rewrite app_nil_r.
Qed.

Lemma stop_twice_witness :
  (stop;; stop) (Scenario.server Scenario.only_alice true (-1))
  = (Raise not_working_error,
     run_state (stop (Scenario.server Scenario.only_alice true (-1))),
     run_trace (stop (Scenario.server Scenario.only_alice true (-1)))).
Proof. apply (stop_twice (Scenario.server Scenario.only_alice true (-1))). reflexivity. Defined.

(** X16: [stop] and a session.  When the coordinator stops the server while
    a session awaits its peer and the await then fails with a
    disconnect-class error, the session ends quietly: its unit was among
    those [stop] gathered the disconnects of, its cleanup finds the set
    already empty and leaves the state as [stop] made it, and the unit is
    disconnected once more. *)
Theorem session_ended_by_stop (reg : gmap string NetFunc) (cl_unit : ClUnit) (k : key)
    (err : exn) (rest : list tick) (s : ServerState) :
  hash_key (login cl_unit) = Some k →
  _is_online s = true →
  is_disconnect_class (exn_type err) = true →
  let joined := set_cl_units (insert k cl_unit) s in
  cl_id cl_unit ∈ live_ids joined ∧
  session reg cl_unit
    ({| tick_env := λ st, run_state (stop st); tick_recv := Failed err |} :: rest) s
  = (Return tt, run_state (stop joined),
     EvLog (LogConnected (login cl_unit)) :: cleanup_events cl_unit) ∧
  _cl_units (run_state (stop joined)) = ∅ ∧
  _is_online (run_state (stop joined)) = false.
Proof.
  intros Hk Honline Hclass joined.
  assert (Hjoined : _is_online joined = true) by done.
  destruct (stop_online joined Hjoined) as [tail Hstop].
  split; [|split; [|by rewrite Hstop]].
  - apply (live_ids_complete joined k). apply lookup_insert_eq.
  - assert (Hexcept : loop_except cl_unit err = Some (ret tt)).
    { unfold loop_except. by destruct (exn_type err). }
    assert (Hguarded :
      try_finally
        (try_except
           (message_loop reg cl_unit
              ({| tick_env := λ st, run_state (stop st); tick_recv := Failed err |}
                 :: rest))
           (loop_except cl_unit))
        (cleanup cl_unit) joined
      = (Return tt, run_state (stop joined), cleanup_events cl_unit)).
    { unfold try_finally, try_except.
      rewrite message_loop_receive_failed by done.
      rewrite Hexcept. unfold ret. cbv beta iota zeta.
      rewrite (cleanup_run cl_unit k) by done. simpl. f_equal. f_equal.
      rewrite Hstop. unfold run_state. simpl.
      apply set_cl_units_same. simpl. apply delete_empty. }
    rewrite (session_run reg cl_unit k) by done. cbv zeta. fold joined.
    by rewrite Hguarded.
Qed.

Lemma session_ended_by_stop_witness :
  session Scenario.registry Scenario.bob
    [{| tick_env := λ st, run_state (stop st);
        tick_recv := Failed (Exn IncompleteReadError (Txt "0 bytes read")) |}]
    (Scenario.server Scenario.only_alice true (-1))
  = (Return tt, Scenario.server ∅ false (-1),
     EvLog (LogConnected (VStr "bob")) :: cleanup_events Scenario.bob).
Proof.
  etrans.
  - apply (session_ended_by_stop Scenario.registry Scenario.bob (KStr "bob")
             (Exn IncompleteReadError (Txt "0 bytes read")) []
             (Scenario.server Scenario.only_alice true (-1)));
      reflexivity.
  - vm_compute. reflexivity.
Defined.

(** ** The handshake, again *)

(** X20: the bounds of the capacity check.  A maximum of zero, or a negative
    one other than -1, refuses every handshake, even with nobody connected;
    a maximum above the live-connection count lets the handshake go on. *)
Theorem capacity_bounds (s : ServerState) :
  ((_max_players s ≤ 0)%Z → (_max_players s ≠ -1)%Z → server_is_full s = true) ∧
  ((Z.of_nat (size (_cl_units s)) < _max_players s)%Z → server_is_full s = false).
Proof.
  split.
  - intros Hle Hne. apply server_is_full_spec. lia.
  - intros Hlt. destruct (server_is_full s) eqn:Hfull; [|done].
    apply server_is_full_spec in Hfull. lia.
Qed.

Lemma capacity_bounds_witness :
  server_is_full (Scenario.server ∅ true 0) = true ∧
  server_is_full (Scenario.server Scenario.only_alice true 2) = false.
Proof.
  split.
  - apply (capacity_bounds (Scenario.server ∅ true 0)); simpl; lia.
  - apply (capacity_bounds (Scenario.server Scenario.only_alice true 2)).
    vm_compute. reflexivity.
Defined.

Lemma cl_handler_after_raise (reg : gmap string NetFunc) (id : nat) (hs : handshake)
    (script : list tick) (s s' : ServerState) (err : exn) tr :
  _auth (init_unit id) hs s = (Raise err, s', tr) →
  _cl_handler reg id hs script s
  = if is_Exception (exn_type err)
    then (Return tt, s', tr ++ [EvSendLogError id (rejection_text err); EvDisconnect id])
    else (Raise err, s', tr).
Proof.
  intros Hauth. unfold _cl_handler. unfold bind at 1, try_except.
  erewrite bind_Raise by exact Hauth.
  unfold auth_except, rejection_text.
  destruct (exn_type err); simpl; run; by rewrite ?app_nil_r.
Qed.

Lemma auth_raises (id : nat) (hs : handshake) (s : ServerState) :
  ∃ err s' tr, _auth (init_unit id) hs s = (Raise err, s', tr).
Proof.
  destruct (server_is_full s) eqn:Hfull.
  - exists full_error, s, []. unfold _auth. run. by rewrite Hfull.
  - destruct hs as [[env [package|err]] store].
    + destruct package;
        try (eexists _, _, _; unfold _auth; run; rewrite Hfull; simpl; reflexivity).
      rewrite auth_on_mapping by done. simpl.
      destruct (truthy _); [|by eexists _, _, _].
      destruct (ResponseCode.call _); by eexists _, _, _.
    + eexists _, _, _. unfold _auth. run. rewrite Hfull. simpl. reflexivity.
Qed.

(** X17: how every run of [_cl_handler] ends, whatever the peer, the store
    and the script of the session.  [_auth] raises; for an [Exception] the
    handler tells the peer why, disconnects and returns; a BaseException it
    does not catch goes on and the unit is not disconnected.  The handler
    itself changes nothing of the class-level state: no unit joins the live
    set. *)
Theorem cl_handler_outcome (reg : gmap string NetFunc) (id : nat) (hs : handshake)
    (script : list tick) (s : ServerState) :
  let a := _auth (init_unit id) hs s in
  let r := _cl_handler reg id hs script s in
  ∃ err, run_outcome a = Raise err ∧
         run_state r = run_state a ∧
         if is_Exception (exn_type err)
         then run_outcome r = Return tt ∧
              run_trace r = run_trace a
                            ++ [EvSendLogError id (rejection_text err); EvDisconnect id]
         else run_outcome r = Raise err ∧ run_trace r = run_trace a.
Proof.
  intros a r. destruct (auth_raises id hs s) as (err & s' & tr & Hauth).
  exists err. unfold a, r. rewrite (cl_handler_after_raise reg id hs script s s' err tr)
    by done.
  rewrite Hauth. by destruct (is_Exception (exn_type err)).
Qed.

(** X18: the awaited reply fails.  When the timeout wins, the peer is sent
    "Timeout for auth." and disconnected, and the handler returns.  When the
    await ends with a BaseException that is no [Exception], a cancellation
    say, the handler lets it go on: nothing is sent after the auth request
    and the unit is not disconnected. *)
Theorem handshake_reply_fails (reg : gmap string NetFunc) (id : nat) env (err : exn)
    store (script : list tick) (s : ServerState) :
  server_is_full s = false →
  let hs := {| hs_reply := {| tick_env := env; tick_recv := Failed err |};
               hs_store := store |} in
  (exn_type err = TimeoutError →
   _cl_handler reg id hs script s
   = (Return tt, env s,
      [auth_request id; EvSendLogError id (Txt "Timeout for auth."); EvDisconnect id])) ∧
  (is_Exception (exn_type err) = false →
   _cl_handler reg id hs script s = (Raise err, env s, [auth_request id])).
Proof.
  intros Hfull hs.
  assert (Hauth : _auth (init_unit id) hs s = (Raise err, env s, [auth_request id])).
  { unfold _auth. run. by rewrite Hfull. }
  rewrite (cl_handler_after_raise reg id hs script s _ _ _ Hauth).
  split.
  - intros Hty. unfold rejection_text. by rewrite Hty.
  - by intros ->.
Qed.

Lemma handshake_reply_fails_witness :
  let silent err := {| hs_reply := Scenario.quiet (Failed err); hs_store := None |} in
  _cl_handler Scenario.registry 2 (silent (Exn TimeoutError (Txt ""))) [] Cases.online
  = (Return tt, Cases.online,
     [auth_request 2; EvSendLogError 2 (Txt "Timeout for auth."); EvDisconnect 2]) ∧
  _cl_handler Scenario.registry 2 (silent Cases.cancelled) [] Cases.online
  = (Raise Cases.cancelled, Cases.online, [auth_request 2]).
Proof.
  intros silent. split.
  - apply (proj1 (handshake_reply_fails Scenario.registry 2 (λ s, s)
                    (Exn TimeoutError (Txt "")) None [] Cases.online eq_refl)).
    reflexivity.
  - apply (proj2 (handshake_reply_fails Scenario.registry 2 (λ s, s)
                    Cases.cancelled None [] Cases.online eq_refl)).
    reflexivity.
Defined.

(** X19: a reply of the wrong shape.  Anything but a dict is answered with
    "Receive data type expected dict."; a dict whose code is truthy but
    equal to no member of [ResponseCode] is answered with the ValueError of
    [ResponseCode(code)], its text passed on as it is; either way the unit is
    disconnected and the handler returns. *)
Theorem handshake_bad_reply (reg : gmap string NetFunc) (id : nat) env (package : value)
    store (script : list tick) (s : ServerState) :
  server_is_full s = false →
  let hs := {| hs_reply := {| tick_env := env; tick_recv := Got package |};
               hs_store := store |} in
  let rejected msg :=
    (Return tt, env s, [auth_request id; EvSendLogError id msg; EvDisconnect id]) in
  ((∀ d, package ≠ VDict d) →
   _cl_handler reg id hs script s = rejected (Txt "Receive data type expected dict.")) ∧
  (∀ d code, package = VDict d → dict_get "code" d = Some code → truthy code = true →
             (∀ c, eq_int code (ResponseCode.int_value c) = false) →
   _cl_handler reg id hs script s = rejected (TxtNotValidCode code)).
Proof.
  intros Hfull hs rejected. split.
  - intros Hnot.
    assert (Hauth : _auth (init_unit id) hs s
                    = (Raise (Exn ValueError (Txt "Receive data type expected dict.")),
                       env s, [auth_request id])).
    { unfold _auth. run. rewrite Hfull. simpl.
      destruct package; try reflexivity. by destruct (Hnot d). }
    by rewrite (cl_handler_after_raise reg id hs script s _ _ _ Hauth).
  - intros d code -> Hcode Htruthy Hno.
    assert (Hauth : _auth (init_unit id) hs s
                    = (Raise (Exn ValueError (TxtNotValidCode code)),
                       env s, [auth_request id])).
    { unfold hs. rewrite auth_on_mapping by done. rewrite Hcode. simpl.
      rewrite Htruthy.
      destruct (ResponseCode.call code) as [err|c] eqn:Hcall.
      - by destruct (call_error code err Hcall) as [-> _].
      - apply call_iff in Hcall. by rewrite Hno in Hcall. }
    by rewrite (cl_handler_after_raise reg id hs script s _ _ _ Hauth).
Qed.

Lemma handshake_bad_reply_witness :
  let replying package := {| hs_reply := Scenario.quiet (Got package); hs_store := None |} in
  _cl_handler Scenario.registry 2 (replying (VStr "login bob pw")) [] Cases.online
  = (Return tt, Cases.online,
     [auth_request 2; EvSendLogError 2 (Txt "Receive data type expected dict.");
      EvDisconnect 2]) ∧
  _cl_handler Scenario.registry 2
    (replying (VDict [("code", VInt 99); ("login", VStr "bob")])) [] Cases.online
  = (Return tt, Cases.online,
     [auth_request 2; EvSendLogError 2 (TxtNotValidCode (VInt 99)); EvDisconnect 2]).
Proof.
  intros replying. split.
  - apply (proj1 (handshake_bad_reply Scenario.registry 2 (λ s, s)
                    (VStr "login bob pw") None [] Cases.online eq_refl)).
    done.
  - apply (proj2 (handshake_bad_reply Scenario.registry 2 (λ s, s)
                    (VDict [("code", VInt 99); ("login", VStr "bob")]) None []
                    Cases.online eq_refl)
             [("code", VInt 99); ("login", VStr "bob")] (VInt 99));
      try reflexivity.
    intros c. by destruct c.
Defined.

(** ** start *)

(** [start] up to its finally block, when the serving ends. *)
Lemma start_served (sc : start_script) (s : ServerState) (l : nat) env (err : exn) :
  _server s = Some l →
  _is_online s = false →
  ss_store_start sc = None →
  ss_served sc = ServingEnded env err →
  let served := env (set_is_online true s) in
  start sc s
  = match stop served with
    | (Return _, s', tr) =>
        (start_outcome_after err, s', start_events err ++ (LcEvent <$> tr))
    | (Raise err', s', tr) => (Raise err', s', start_events err ++ (LcEvent <$> tr))
    | (Pending, s', tr) => (Pending, s', start_events err ++ (LcEvent <$> tr))
    end.
Proof.
  intros Hserver Hoff Hstore Hserved served.
  unfold start, store_start, serve_forever, async_with_server.
  unfold bindE at 1. unfold getsE at 1. rewrite Hserver.
  unfold bindE at 1. unfold getsE at 1. rewrite Hoff.
  rewrite Hstore, Hserved.
  unfold start_outcome_after, start_events, start_except, of_M, assign_is_online.
  unfold try_finallyE, try_exceptE, bindE, emitE, retE, raiseE, modifyE, bind,
    modify, emit. simpl. fold served.
  destruct (exn_type err); simpl;
    destruct (stop served) as [[[[]|err'|] s'] tr]; reflexivity.
Qed.

(** X21: what makes [start] fail before it serves.  Without a listener
    ([setup_server] has not run) it raises "Server is not initialized.";
    online already, "Server already start."; neither starts the store.  When
    [ServerDB.start()] raises, [start] raises the same.  In all three the
    class-level state is untouched, and [stop] is not called. *)
Theorem start_refused (sc : start_script) (s : ServerState) :
  (_server s = None → start sc s = (Raise not_initialized_error, s, [])) ∧
  (∀ l, _server s = Some l → _is_online s = true →
        start sc s = (Raise already_start_error, s, [])) ∧
  (∀ l err, _server s = Some l → _is_online s = false →
            ss_store_start sc = Some err →
            start sc s = (Raise err, s, [LcStoreStart])).
Proof.
  split; [|split].
  - intros Hserver. unfold start. unfold bindE at 1. unfold getsE at 1.
    by rewrite Hserver.
  - intros l Hserver Honline. unfold start.
    unfold bindE at 1. unfold getsE at 1. rewrite Hserver.
    unfold bindE at 1. unfold getsE at 1. by rewrite Honline.
  - intros l err Hserver Hoff Hstore. unfold start, store_start.
    unfold bindE at 1. unfold getsE at 1. rewrite Hserver.
    unfold bindE at 1. unfold getsE at 1. rewrite Hoff. rewrite Hstore.
    reflexivity.
Qed.

Lemma start_refused_witness :
  let sc := {| ss_store_start := None; ss_served := StillServing |} in
  start sc class_attributes = (Raise not_initialized_error, class_attributes, []) ∧
  start sc (Scenario.server ∅ true (-1))
  = (Raise already_start_error, Scenario.server ∅ true (-1), []).
Proof.
  intros sc. split.
  - apply (proj1 (start_refused sc class_attributes)). reflexivity.
  - apply (proj1 (proj2 (start_refused sc (Scenario.server ∅ true (-1)))) 0%nat);
      reflexivity.
Defined.

(** X22: [start] always ends with [stop].  When the serving ends, by
    cancellation or by any exception, and the server is still online, [stop]
    runs last: the live connections are sent their disconnects, and [start]
    leaves the server offline with an empty live-connection set.  It returns
    after a cancellation or an [Exception], and re-raises any other
    BaseException. *)
Theorem start_ends_with_stop (sc : start_script) (s : ServerState) (l : nat)
    env (err : exn) :
  _server s = Some l →
  _is_online s = false →
  ss_store_start sc = None →
  ss_served sc = ServingEnded env err →
  let served := env (set_is_online true s) in
  _is_online served = true →
  outcome_of (start sc s) = start_outcome_after err ∧
  state_of (start sc s) = run_state (stop served) ∧
  _is_online (state_of (start sc s)) = false ∧
  _cl_units (state_of (start sc s)) = ∅ ∧
  ∃ tail, trace_of (start sc s)
          = start_events err
            ++ LcEvent (EvOnline false) :: LcEvent (EvGatherDisconnect (live_ids served))
            :: tail.
Proof.
  intros Hserver Hoff Hstore Hserved served Honline.
  rewrite (start_served sc s l env err) by done. fold served.
  destruct (stop_online served Honline) as [tail Hstop]. rewrite Hstop.
  unfold outcome_of, state_of, trace_of. simpl. repeat split.
  by exists (LcEvent <$> tail).
Qed.

(** The task that serves is cancelled while alice is connected. *)
Lemma start_ends_with_stop_witness :
  let sc := {| ss_store_start := None;
               ss_served := ServingEnded (set_cl_units (λ _, Scenario.only_alice))
                                         Cases.cancelled |} in
  let r := start sc (Scenario.server ∅ false (-1)) in
  outcome_of r = Return tt ∧
  _is_online (state_of r) = false ∧
  _cl_units (state_of r) = ∅.
Proof.
  intros sc r.
  destruct (start_ends_with_stop sc (Scenario.server ∅ false (-1)) 0%nat
              (set_cl_units (λ _, Scenario.only_alice)) Cases.cancelled
              eq_refl eq_refl eq_refl eq_refl eq_refl)
    as (Hout & _ & Hoff & Hunits & _).
  split; [exact Hout|]. split; [exact Hoff|exact Hunits].
Defined.

(** X23: [start] after a [stop] from elsewhere.  When the server has been
    stopped while it served (the flag is False when the serving ends), the
    [stop] of the finally block raises "Server is not working.", and that is
    how [start] ends, whatever ended the serving; the state is as the other
    task left it. *)
Theorem start_after_stop (sc : start_script) (s : ServerState) (l : nat)
    env (err : exn) :
  _server s = Some l →
  _is_online s = false →
  ss_store_start sc = None →
  ss_served sc = ServingEnded env err →
  let served := env (set_is_online true s) in
  _is_online served = false →
  start sc s = (Raise not_working_error, served, start_events err).
Proof.
  intros Hserver Hoff Hstore Hserved served Hstopped.
  rewrite (start_served sc s l env err) by done. fold served.
  rewrite stop_offline by done. simpl. by rewrite app_nil_r.
Qed.

(** Another task calls [stop], which closes the listener and so cancels the
    serving. *)
Lemma start_after_stop_witness :
  let sc := {| ss_store_start := None;
               ss_served := ServingEnded (λ st, run_state (stop st)) Cases.cancelled |} in
  start sc (Scenario.server ∅ false (-1))
  = (Raise not_working_error, Scenario.server ∅ false (-1),
     start_events Cases.cancelled).
Proof.
  intros sc.
  apply (start_after_stop sc (Scenario.server ∅ false (-1)) 0%nat
           (λ st, run_state (stop st)) Cases.cancelled);
    reflexivity.
Defined.
